(** * chemcomp_loader: the planet loader

    A shallow embedding of [src/chemcomp_loader/planet_loader.py] and the
    properties the module's specification states about it.

    The Python module reads a fixed set of arrays from the "/planet" group
    of an HDF5 file, rescales two of them, merges thirteen options of a
    configuration file onto the same object and fans the two composition
    arrays out into per-species attributes of two helper objects. *)

From Stdlib Require Import QArith Ascii.
From stdpp Require Import gmap strings list fin_maps sorting.

Local Open Scope string_scope.

(** ** Collaborators outside the module

    [numpy] scalars, their true division, the two unit constants computed by
    [astropy] at import time ([AU], [Myr]) and the reader of numeric
    literals are taken as an interface: nothing below depends on how a
    scalar is represented or rounded. *)

Class Numeric := {
  F : Type;
  fdiv : F -> F -> F;
  AU : F;
  Myr : F;
  float_lit : string -> option F
}.

(** ** Exceptions *)

(** [OSError]: the file at [path] cannot be opened.  [NoSuchNodeError]: the
    HDF5 file has no such group or leaf.  [IndexError], [AxisError],
    [TypeError], [AttributeError]: raised by indexing, [swapaxes], iteration
    and attribute access.  [ParseError], [EvaluationError]: the two failures
    the specification gives the configuration helpers. *)
Inductive exn :=
| OSError (path : string)
| NoSuchNodeError (node : string)
| IndexError
| AxisError
| TypeError
| AttributeError (name : string)
| ParseError (path : string)
| EvaluationError (text : string).

Definition res (A : Type) : Type := exn + A.

#[global] Instance res_ret : MRet res := fun A a => inr a.
#[global] Instance res_bind : MBind res := fun A B f m =>
  match m with
  | inl e => inl e
  | inr a => f a
  end.

Section Loader.
Context `{Numeric}.

(** ** Data model *)

(** An n-dimensional array: its shape and its items by multi-index.  Slices
    and axis swaps of [numpy] are views, that is, re-indexings. *)
Record ndarray := { shape : list nat; item : list nat -> F }.

(** A Python value, as far as this module handles one. *)
Inductive pyval :=
| VNone
| VBool (b : bool)
| VNum (x : F)
| VStr (s : string)
| VList (l : list string)
| VArr (a : ndarray)
| VObj (o : gmap string ndarray).

(** The attribute dictionary of an instance. *)
Abbreviation pyobj := (gmap string pyval).

(** A group of the HDF5 file: what [dir] reports for the node, and its
    leaves by name, each already read as an array. *)
Record group := { g_dir : list string; g_children : gmap string ndarray }.

(** An opened HDF5 file: its nodes by path. *)
Abbreviation h5file := (gmap string group).

(** A configuration file: unreadable text, or a mapping of mappings. *)
Inductive cfg_text :=
| Malformed
| Parsed (c : gmap string (gmap string pyval)).

Record filesystem := {
  h5_files : gmap string h5file;
  cfg_files : gmap string cfg_text
}.

(** ** The interpreter state: the instance under construction and the
    file handles opened and closed so far. *)

Inductive io_event :=
| EvOpen (path : string)
| EvClose (path : string).

Record state := { self : pyobj; trace : list io_event }.

Definition Py (A : Type) : Type := state -> res A * state.

#[global] Instance Py_ret : MRet Py := fun A a σ => (inr a, σ).
#[global] Instance Py_bind : MBind Py := fun A B f m σ =>
  match m σ with
  | (inl e, σ') => (inl e, σ')
  | (inr a, σ') => f a σ'
  end.

Definition lift {A} (r : res A) : Py A := fun σ => (r, σ).

(** [self.name = v] *)
Definition setattr (name : string) (v : pyval) : Py unit := fun σ =>
  (inr tt, {| self := <[name := v]> (self σ); trace := trace σ |}).

Definition emit (e : io_event) : Py unit := fun σ =>
  (inr tt, {| self := self σ; trace := trace σ ++ [e] |}).

(** ** numpy operations used by the module *)

(** [a / c] for a scalar [c]. *)
Definition true_divide (a : ndarray) (c : F) : ndarray :=
  {| shape := shape a; item := fun idx => fdiv (item a idx) c |}.

(** [a[:, k]] *)
Definition take_axis1 (k : nat) (a : ndarray) : res ndarray :=
  match shape a with
  | n0 :: n1 :: rest =>
      if decide (k < n1)
      then inr {| shape := n0 :: rest;
                  item := fun idx => item a match idx with
                                            | i :: r => i :: k :: r
                                            | [] => []
                                            end |}
      else inl IndexError
  | _ => inl IndexError
  end.

(** [a.swapaxes(0, 1)] *)
Definition swapaxes01 (a : ndarray) : res ndarray :=
  match shape a with
  | n0 :: n1 :: rest =>
      inr {| shape := n1 :: n0 :: rest;
             item := fun idx => item a match idx with
                                       | i :: j :: r => j :: i :: r
                                       | _ => idx
                                       end |}
  | _ => inl AxisError
  end.

(** Iterating an array yields its sub-arrays along the first axis. *)
Definition subarray (a : ndarray) (i : nat) : ndarray :=
  {| shape := tail (shape a); item := fun idx => item a (i :: idx) |}.

Definition iter_array (a : ndarray) : res (list ndarray) :=
  match shape a with
  | n :: _ => inr (subarray a <$> seq 0 n)
  | [] => inl TypeError
  end.

(** The items of a one-dimensional array, in order. *)
Definition to_list (a : ndarray) : list F :=
  (fun i => item a [i]) <$> seq 0 (hd 0 (shape a)).

(** ** tables operations used by the module *)

(** [f.get_node(path)], also reached as [f.root.planet]. *)
Definition get_node (f : h5file) (path : string) : res group :=
  match f !! path with
  | Some g => inr g
  | None => inl (NoSuchNodeError path)
  end.

(** [np.array(f.root.planet.<name>)] *)
Definition np_array (f : h5file) (name : string) : res ndarray :=
  g ← get_node f "/planet";
  match g_children g !! name with
  | Some a => inr a
  | None => inl (NoSuchNodeError name)
  end.

(** [with tables.open_file(path, mode='r') as f: body]: the handle is
    closed when the block is left, by its end or by an exception. *)
Definition with_open_file {A} (fs : filesystem) (path : string)
    (body : h5file -> Py A) : Py A := fun σ =>
  match h5_files fs !! path with
  | None => (inl (OSError path), σ)
  | Some f =>
      let '(r, σ') := (emit (EvOpen path) ;; body f) σ in
      (r, {| self := self σ'; trace := trace σ' ++ [EvClose path] |})
  end.

(** ** Planet_class.load_planet *)

(** [q[0]] *)
Definition first_char (q : string) : res Ascii.ascii :=
  match q with
  | String c _ => inr c
  | EmptyString => inl IndexError
  end.

(** [[q for q in names if q[0] != '_']] *)
Fixpoint public_names (names : list string) : res (list string) :=
  match names with
  | [] => inr []
  | q :: rest =>
      c ← first_char q;
      tl ← public_names rest;
      inr (if decide (c = "_"%char) then tl else q :: tl)
  end.

(** [self.<name> = np.array(f.root.planet.<name>)] *)
Definition load_field (f : h5file) (name : string) : Py unit :=
  a ← lift (np_array f name); setattr name (VArr a).

(** [self.<name> = np.array(f.root.planet.<name>) / c] *)
Definition load_field_div (f : h5file) (name : string) (c : F) : Py unit :=
  a ← lift (np_array f name); setattr name (VArr (true_divide a c)).

Definition load_planet (fs : filesystem) (file_path : string) : Py unit :=
  with_open_file fs file_path (fun f =>
    node ← lift (get_node f "/planet");
    quantities ← lift (public_names (g_dir node));
    setattr "disc_quantities" (VList quantities);;
    load_field f "M";;
    load_field f "M_a";;
    load_field f "M_c";;
    load_field f "M_z_gas";;
    load_field f "M_z_peb";;
    load_field f "T";;
    load_field_div f "a_p" AU;;
    load_field f "comp_a";;
    load_field f "comp_c";;
    load_field f "fSigma";;
    load_field f "gamma_norm";;
    load_field f "gamma_tot";;
    load_field f "m_dot_a_chem_gas";;
    load_field f "m_dot_a_chem_peb";;
    load_field f "m_dot_a_gas";;
    load_field f "m_dot_a_peb";;
    load_field f "m_dot_c_chem_gas";;
    load_field f "m_dot_c_chem_peb";;
    load_field f "m_dot_c_gas";;
    load_field f "m_dot_c_peb";;
    load_field f "m_dot_gas";;
    load_field f "m_dot_peb";;
    load_field f "peb_iso";;
    load_field f "pebble_flux";;
    load_field f "regime_gas";;
    load_field f "regime_peb";;
    load_field f "sigma_g";;
    load_field f "sigma_peb";;
    load_field_div f "t" Myr;;
    load_field f "tau_m";;
    load_field f "units").

(** ** Planet_class.load_parameters_from_config *)

(** Modelled from the spec: [import_config] of [import_config.py], which is
    not part of the sources at hand.  The configuration file is a mapping
    of mappings; malformed text fails with a parse error. *)
Definition import_config (fs : filesystem) (path : string)
    : res (gmap string (gmap string pyval)) :=
  match cfg_files fs !! path with
  | None => inl (OSError path)
  | Some Malformed => inl (ParseError path)
  | Some (Parsed c) => inr c
  end.

(** Modelled from the spec: [eval_kwargs] of [import_config.py], which is
    not part of the sources at hand.  It converts a literal textual value
    into its typed runtime value (["True"], ["1.5"], ["None"]); a value that
    is not text, the null of a missing option among them, is passed on as
    it is; text that cannot be evaluated raises. *)
Definition eval_kwargs (v : pyval) : res pyval :=
  match v with
  | VStr s =>
      if decide (s = "True") then inr (VBool true)
      else if decide (s = "False") then inr (VBool false)
      else if decide (s = "None") then inr VNone
      else match float_lit s with
           | Some x => inr (VNum x)
           | None => inl (EvaluationError s)
           end
  | _ => inr v
  end.

(** [d.get(key, None)] *)
Definition dict_get (d : gmap string pyval) (key : string) : pyval :=
  default VNone (d !! key).

(** [self.<name> = eval_kwargs(section.get('<name>', None))] *)
Definition merge_option (section : gmap string pyval) (name : string)
    : Py unit :=
  v ← lift (eval_kwargs (dict_get section name)); setattr name v.

Definition load_parameters_from_config (fs : filesystem)
    (config_file_path : string) : Py unit :=
  config ← lift (import_config fs config_file_path);
  let config_disk := default ∅ (config !! "config_planet") in
  let config_planetesimal_accretion :=
    default ∅ (config !! "config_planetesimal_accretion") in
  merge_option config_disk "matter_removal";;
  merge_option config_disk "use_heat_torque";;
  merge_option config_disk "use_dynamical_torque";;
  merge_option config_disk "migration";;
  merge_option config_disk "M0_fact";;
  merge_option config_disk "a_p";;
  merge_option config_disk "t_0";;
  merge_option config_disk "rho_c";;
  merge_option config_disk "r_in";;
  merge_option config_disk "keep_peb_iso";;
  merge_option config_disk "use_pebiso_diffusion";;
  merge_option config_planetesimal_accretion "R_pla";;
  merge_option config_planetesimal_accretion "rho_pla".

(** ** Planet_atmo and Planet_core *)

(** The two ordered name lists of [chemistry_properties.py], which is not
    part of the sources at hand. *)
Variables element_array molecule_array : list string.

(** [super.<attr>[:, layer].swapaxes(0, 1)], as the sequence [zip] walks. *)
Definition species_rows (super : pyobj) (attr : string) (layer : nat)
    : res (list ndarray) :=
  comp ← match super !! attr with
         | Some (VArr a) => inr a
         | Some _ => inl TypeError
         | None => inl (AttributeError attr)
         end;
  sl ← take_axis1 layer comp;
  sw ← swapaxes01 sl;
  iter_array sw.

(** The attribute names an instance of a plain class does not let [setattr]
    bind to an array: [__class__] must be a class and [__dict__] a
    dictionary ([TypeError]), [__weakref__] is not writable
    ([AttributeError]).  Every other name goes to the instance
    dictionary. *)
Definition refused (name : string) : option exn :=
  if decide (name = "__class__") then Some TypeError
  else if decide (name = "__dict__") then Some TypeError
  else if decide (name = "__weakref__")
       then Some (AttributeError "__weakref__")
  else None.

(** [setattr(self, name, component)] *)
Definition setattr_view (name : string) (component : ndarray)
    (this : gmap string ndarray) : res (gmap string ndarray) :=
  match refused name with
  | Some e => inl e
  | None => inr (<[name := component]> this)
  end.

(** [for name, component in zip(names, rows): setattr(self, name, component)]:
    the loop ends with the shorter of the two sequences and stops at the
    first name [setattr] refuses. *)
Fixpoint setattr_each (names : list string) (rows : list ndarray)
    (this : gmap string ndarray) : res (gmap string ndarray) :=
  match names, rows with
  | name :: names', component :: rows' =>
      this' ← setattr_view name component this;
      setattr_each names' rows' this'
  | _, _ => inr this
  end.

Definition Planet_atmo (super : pyobj) : res (gmap string ndarray) :=
  rows ← species_rows super "comp_a" 0;
  this ← setattr_each element_array rows ∅;
  rows ← species_rows super "comp_a" 1;
  setattr_each molecule_array rows this.

Definition Planet_core (super : pyobj) : res (gmap string ndarray) :=
  rows ← species_rows super "comp_c" 0;
  this ← setattr_each element_array rows ∅;
  rows ← species_rows super "comp_c" 1;
  setattr_each molecule_array rows this.

(** ** Planet_class.__init__ and the constructor call *)

Definition get_self : Py pyobj := fun σ => (inr (self σ), σ).

Definition Planet_class_init (fs : filesystem)
    (file_path config_file_path : string) : Py unit :=
  load_planet fs file_path;;
  load_parameters_from_config fs config_file_path;;
  this ← get_self;
  atmo ← lift (Planet_atmo this);
  setattr "atmo" (VObj atmo);;
  this ← get_self;
  core ← lift (Planet_core this);
  setattr "core" (VObj core).

Definition fresh : state := {| self := ∅; trace := [] |}.

(** [Planet_class(file_path, config_file_path)]: the caller receives the
    instance only when [__init__] returns; an exception leaves it with
    nothing. *)
Definition Planet_class (fs : filesystem)
    (file_path config_file_path : string) : res pyobj :=
  match Planet_class_init fs file_path config_file_path fresh with
  | (inl e, _) => inl e
  | (inr _, σ) => inr (self σ)
  end.

(** ** The fields and options the module names, as tables *)

(** The fields [load_planet] reads, in the order of its assignments, each
    with the constant it is divided by, if any. *)
Definition planet_fields : list (string * option F) :=
  [ ("M", None); ("M_a", None); ("M_c", None); ("M_z_gas", None);
    ("M_z_peb", None); ("T", None); ("a_p", Some AU); ("comp_a", None);
    ("comp_c", None); ("fSigma", None); ("gamma_norm", None);
    ("gamma_tot", None); ("m_dot_a_chem_gas", None);
    ("m_dot_a_chem_peb", None); ("m_dot_a_gas", None);
    ("m_dot_a_peb", None); ("m_dot_c_chem_gas", None);
    ("m_dot_c_chem_peb", None); ("m_dot_c_gas", None);
    ("m_dot_c_peb", None); ("m_dot_gas", None); ("m_dot_peb", None);
    ("peb_iso", None); ("pebble_flux", None); ("regime_gas", None);
    ("regime_peb", None); ("sigma_g", None); ("sigma_peb", None);
    ("t", Some Myr); ("tau_m", None); ("units", None) ].

Definition load_step (f : h5file) (p : string * option F) : Py unit :=
  match p.2 with
  | None => load_field f p.1
  | Some c => load_field_div f p.1 c
  end.

(** The assignments of [load_planet] as a walk over the table. *)
Fixpoint load_steps (f : h5file) (l : list (string * option F)) : Py unit :=
  match l with
  | [] => mret tt
  | p :: l' =>
      match l' with
      | [] => load_step f p
      | _ => load_step f p ;; load_steps f l'
      end
  end.

(** What a field of the table holds once loaded from the raw array. *)
Definition loaded (c : option F) (raw : ndarray) : pyval :=
  match c with
  | None => VArr raw
  | Some k => VArr (true_divide raw k)
  end.

(** The options [load_parameters_from_config] merges, in the order of its
    assignments, each with the top-level section it is read from. *)
Definition config_options : list (string * string) :=
  [ ("config_planet", "matter_removal");
    ("config_planet", "use_heat_torque");
    ("config_planet", "use_dynamical_torque");
    ("config_planet", "migration");
    ("config_planet", "M0_fact");
    ("config_planet", "a_p");
    ("config_planet", "t_0");
    ("config_planet", "rho_c");
    ("config_planet", "r_in");
    ("config_planet", "keep_peb_iso");
    ("config_planet", "use_pebiso_diffusion");
    ("config_planetesimal_accretion", "R_pla");
    ("config_planetesimal_accretion", "rho_pla") ].

(** [config.get(section, {})] *)
Definition section_of (config : gmap string (gmap string pyval))
    (section : string) : gmap string pyval :=
  default ∅ (config !! section).

Fixpoint merge_steps (config : gmap string (gmap string pyval))
    (l : list (string * string)) : Py unit :=
  match l with
  | [] => mret tt
  | p :: l' =>
      match l' with
      | [] => merge_option (section_of config p.1) p.2
      | _ => merge_option (section_of config p.1) p.2 ;; merge_steps config l'
      end
  end.

(** ** Vocabulary of the properties *)

(** A name of the "/planet" group that does not begin with an underscore. *)
Definition is_public (q : string) : bool := negb (String.prefix "_" q).

(** The errors the specification files under NotFound/Format. *)
Definition not_found_or_format (e : exn) : Prop :=
  match e with
  | OSError _ | NoSuchNodeError _ => True
  | _ => False
  end.

(** The file at [path] opens, has the "/planet" group [g] with every field
    of the table, and [dir] reports no empty name for it. *)
Definition valid_file (fs : filesystem) (path : string) (g : group) : Prop :=
  (exists f, h5_files fs !! path = Some f /\ f !! "/planet" = Some g) /\
  Forall (fun q => q <> "") (g_dir g) /\
  forall name, name ∈ planet_fields.*1 -> is_Some (g_children g !! name).

(** The file at [path] cannot be opened, or lacks the "/planet" group, or
    the group lacks a field of the table. *)
Definition unloadable (fs : filesystem) (path : string) : Prop :=
  match h5_files fs !! path with
  | None => True
  | Some f =>
      match f !! "/planet" with
      | None => True
      | Some g => exists name, name ∈ planet_fields.*1 /\
                               g_children g !! name = None
      end
  end.

(** [dir] reports no empty name for the "/planet" group of the file. *)
Definition dir_names_nonempty (fs : filesystem) (path : string) : Prop :=
  forall f g, h5_files fs !! path = Some f -> f !! "/planet" = Some g ->
              Forall (fun q => q <> "") (g_dir g).

(** [setattr] accepts each of the first [n] names of the list, the ones a
    loop over [n] rows reaches. *)
Definition names_accepted (n : nat) (names : list string) : Prop :=
  Forall (fun name => refused name = None) (take n names).

(** The dictionary a loop leaves when [setattr] accepts every name it
    reaches: the assignments in order, a later one replacing an earlier one
    of the same name. *)
Definition assign_each (names : list string) (rows : list ndarray)
    (this : gmap string ndarray) : gmap string ndarray :=
  foldl (fun o p => <[p.1 := p.2]> o) this (zip names rows).

(** [a] is the one-dimensional sequence of species [i] of layer [layer]
    over the steps of [comp]. *)
Definition species_series (comp : ndarray) (layer i : nat) (a : ndarray)
    : Prop :=
  shape a = [hd 0 (shape comp)] /\
  forall t, t < hd 0 (shape comp) -> item a [t] = item comp [t; layer; i].

(** Looking the names up in [view], in the order of the list, gives back
    the species axis of layer [layer] of [comp]. *)
Definition reconstructs (names : list string) (layer : nat) (comp : ndarray)
    (view : gmap string ndarray) : Prop :=
  forall i name, names !! i = Some name ->
    exists a, view !! name = Some a /\ species_series comp layer i a.

End Loader.

Abbreviation pyobj := (gmap string pyval).
Abbreviation h5file := (gmap string group).

(** ** An instance for running the model: exact rational scalars

    The two constants are the values [astropy] gives: one astronomical
    unit in centimetres and one million Julian years in seconds. *)

Module Rational.

Definition digit (c : Ascii.ascii) : option Z :=
  let n := Ascii.nat_of_ascii c in
  if (48 <=? n)%nat && (n <=? 57)%nat then Some (Z.of_nat (n - 48)) else None.

(** Reads [digits] or [digits.digits]. *)
Fixpoint read_decimal (s : string) (num : Z) (den : positive)
    (frac seen : bool) : option Q :=
  match s with
  | EmptyString => if seen then Some (num # den)%Q else None
  | String c rest =>
      if decide (c = "."%char)
      then if frac then None else read_decimal rest num den true seen
      else match digit c with
           | Some d =>
               read_decimal rest (10 * num + d)%Z
                 (if frac then (10 * den)%positive else den) frac true
           | None => None
           end
  end.

#[export] Instance numeric : Numeric := {|
  F := Q;
  fdiv := Qdiv;
  AU := 14959787070000 # 1;
  Myr := 31557600000000 # 1;
  float_lit := fun s => read_decimal s 0 1 false false
|}.

Definition array1 (l : list Q) : ndarray :=
  {| shape := [length l];
     item := fun idx => match idx with
                        | [i] => nth i l 0%Q
                        | _ => 0%Q
                        end |}.

(** An array of shape steps × layers × species from its nested rows. *)
Definition array3 (l : list (list (list Q))) : ndarray :=
  {| shape := [length l; length (hd [] l); length (hd [] (hd [] l))];
     item := fun idx => match idx with
                        | [i; j; k] => nth k (nth j (nth i l []) []) 0%Q
                        | _ => 0%Q
                        end |}.

End Rational.

Module Example.
Import Rational.

(** Three steps, two layers, two species; layer 0 is [[1,2],[3,4],[5,6]]. *)
Definition comp : ndarray :=
  array3 [ [ [1; 2]; [10; 20] ];
           [ [3; 4]; [30; 40] ];
           [ [5; 6]; [50; 60] ] ]%Q.

Definition series : ndarray := array1 [14959787070000; 29919574140000; 0]%Q.

Definition planet : group :=
  {| g_dir := ["_v_name"; "M"; "a_p"; "comp_a"; "t"; "_f_close"];
     g_children :=
       <["comp_a" := comp]> (<["comp_c" := comp]>
         (list_to_map ((fun p => (p.1, series)) <$> planet_fields))) |}.

Definition options : gmap string pyval :=
  <["migration" := VStr "False"]> (<["a_p" := VStr "0.1"]> ∅).

Definition fs : filesystem :=
  {| h5_files := <["simulation.h5" := <["/planet" := planet]> ∅]>
                   (<["empty.h5" := ∅]> ∅);
     cfg_files := <["config.yaml" := Parsed (<["config_planet" := options]> ∅)]>
                    (<["bare.yaml" := Parsed ∅]> ∅) |}.

Definition elements : list string := ["Fe"; "Si"].
Definition molecules : list string := ["CO"; "H2O"].

(** A one-step array whose element layer is [[1,2]]. *)
Definition one_step : ndarray := array3 [ [ [1; 2]; [3; 4] ] ]%Q.

Definition the {A} (d : A) (r : res A) : A :=
  match r with
  | inr a => a
  | inl _ => d
  end.

(** The state [load_planet] leaves, and the instances the constructor
    returns with either configuration file. *)
Definition loaded_state : state := (load_planet fs "simulation.h5" fresh).2.

Definition record : gmap string pyval :=
  the ∅ (Planet_class elements molecules fs "simulation.h5" "config.yaml").

Definition bare_record : gmap string pyval :=
  the ∅ (Planet_class elements molecules fs "simulation.h5" "bare.yaml").

(** An instance that holds the composition arrays only. *)
Definition holder (a : ndarray) : gmap string pyval :=
  <["comp_a" := VArr a]> (<["comp_c" := VArr a]> ∅).

Definition atmo_of (elems mols : list string) (a : ndarray)
    : gmap string ndarray :=
  the ∅ (Planet_atmo elems mols (holder a)).

End Example.

(** * The rest of the module *)

Section Introspection.
Context `{Numeric}.

(** ** Planet_class.print_attributes *)

(** The order of Python strings, character by character. *)
Definition str_le (s1 s2 : string) : Prop := String.leb s1 s2 = true.

#[global] Instance str_le_dec s1 s2 : Decision (str_le s1 s2).
Proof. unfold str_le. apply _. Defined.

(** The names the body of [class Planet_class] binds. *)
Definition Planet_class_names : list string :=
  ["__init__"; "load_planet"; "load_parameters_from_config";
   "print_attributes"].

(** [dir(self)]: the names of the instance dictionary, of the class and of
    what Python itself provides ([builtin_names]: the attributes of [object]
    and the implicit ones of a class), each once, sorted. *)
Definition dir_instance (builtin_names : list string) (this : pyobj)
    : list string :=
  merge_sort str_le
    (remove_dups ((map_to_list this).*1 ++ Planet_class_names
                  ++ builtin_names)).

(** [[print(attribute) for attribute in dir(self) if attribute[0:2] != '__']]:
    the lines written to standard output, in order. *)
Definition print_attributes (builtin_names : list string) (this : pyobj)
    : list string :=
  filter (fun attribute => String.substring 0 2 attribute <> "__")
    (dir_instance builtin_names this).

(** ** Vocabulary of the further properties *)

(** The attributes a constructed instance has. *)
Definition record_attributes : list string :=
  "disc_quantities" :: planet_fields.*1 ++ config_options.*2
    ++ ["atmo"; "core"].

(** The lines [print_attributes] writes for a constructed instance. *)
Definition printed_attributes : list string :=
  [ "M"; "M0_fact"; "M_a"; "M_c"; "M_z_gas"; "M_z_peb"; "R_pla"; "T";
    "a_p"; "atmo"; "comp_a"; "comp_c"; "core"; "disc_quantities"; "fSigma";
    "gamma_norm"; "gamma_tot"; "keep_peb_iso";
    "load_parameters_from_config"; "load_planet"; "m_dot_a_chem_gas";
    "m_dot_a_chem_peb"; "m_dot_a_gas"; "m_dot_a_peb"; "m_dot_c_chem_gas";
    "m_dot_c_chem_peb"; "m_dot_c_gas"; "m_dot_c_peb"; "m_dot_gas";
    "m_dot_peb"; "matter_removal"; "migration"; "peb_iso"; "pebble_flux";
    "print_attributes"; "r_in"; "regime_gas"; "regime_peb"; "rho_c";
    "rho_pla"; "sigma_g"; "sigma_peb"; "t"; "t_0"; "tau_m"; "units";
    "use_dynamical_torque"; "use_heat_torque"; "use_pebiso_diffusion" ].

(** An array the view constructors fan out under the two name lists: it
    has at least three axes and two layers, and [setattr] accepts the names
    the two loops reach. *)
Definition view_builds (elems mols : list string) (a : ndarray) : Prop :=
  exists T L S rest,
    shape a = T :: L :: S :: rest /\ 1 < L /\
    names_accepted S elems /\ names_accepted S mols.

(** [a] is the block of species [i] of layer [layer] of [comp], over the
    steps and whatever axes follow the species axis. *)
Definition species_block (comp : ndarray) (layer i : nat) (a : ndarray)
    : Prop :=
  shape a = hd 0 (shape comp) :: drop 3 (shape comp) /\
  forall t idx, item a (t :: idx) = item comp (t :: layer :: i :: idx).

(** [i] is the last position below [n] at which [names] has [name]. *)
Definition last_at (names : list string) (n i : nat) (name : string) : Prop :=
  i < n /\ names !! i = Some name /\
  forall k, i < k -> k < n -> names !! k <> Some name.

End Introspection.

Module Example2.
Import Rational Example.

(** A file whose "/planet" group stops after [M] and [M_a], configuration
    files with an option that cannot be evaluated and with unreadable text,
    beside the files of [Example.fs]. *)
Definition partial_planet : group :=
  {| g_dir := ["M"; "M_a"];
     g_children := <["M" := series]> (<["M_a" := series]> ∅) |}.

Definition bad_options : gmap string pyval :=
  <["matter_removal" := VStr "True"]> (<["migration" := VStr "perhaps"]> ∅).

Definition fs : filesystem :=
  {| h5_files := <["partial.h5" := <["/planet" := partial_planet]> ∅]>
                   (h5_files Example.fs);
     cfg_files := <["bad.yaml" := Parsed (<["config_planet" := bad_options]> ∅)]>
                    (<["broken.yaml" := Malformed]> (cfg_files Example.fs)) |}.

(** Arrays of one, two and four axes, and one with a single layer. *)
Definition flat : ndarray := array1 [1; 2; 3]%Q.

Definition table : ndarray :=
  {| shape := [3; 2]; item := fun _ => 0%Q |}.

Definition single_layer : ndarray := array3 [ [ [1; 2] ]; [ [3; 4] ] ]%Q.

Definition blocks : ndarray :=
  {| shape := [3; 2; 2; 4];
     item := fun idx => (Z.of_nat (hd 0%nat idx) # 1)%Q |}.

(** The names Python itself provides, as far as the examples need them. *)
Definition builtin_names : list string :=
  ["__class__"; "__dict__"; "__doc__"; "__module__"; "__weakref__"].

(** An instance that already has an attribute of its own, and the state
    the merge of the example configuration leaves. *)
Definition marked : state :=
  {| self := <["note" := VStr "kept"]> ∅; trace := [] |}.

Definition merged_state : state :=
  (load_parameters_from_config Example.fs "config.yaml" fresh).2.

End Example2.

(** * Properties *)

Section Properties.
Context {num : Numeric}.
Implicit Types (σ : state) (fs : filesystem) (g : group).

(** ** The two methods as walks over their tables *)

Lemma load_planet_table fs file_path :
  load_planet fs file_path =
  with_open_file fs file_path (fun f =>
    node ← lift (get_node f "/planet");
    quantities ← lift (public_names (g_dir node));
    setattr "disc_quantities" (VList quantities);;
    load_steps f planet_fields).
Proof. reflexivity. Qed.

Lemma load_parameters_table fs config_file_path :
  load_parameters_from_config fs config_file_path =
  (config ← lift (import_config fs config_file_path);
   merge_steps config config_options).
Proof. reflexivity. Qed.

Lemma state_eta σ : {| self := self σ; trace := trace σ |} = σ.
Proof. by destruct σ. Qed.

Lemma planet_fields_NoDup : NoDup (planet_fields.*1).
Proof. apply (bool_decide_unpack _). by vm_compute. Qed.

Lemma config_options_NoDup : NoDup (config_options.*2).
Proof. apply (bool_decide_unpack _). by vm_compute. Qed.

(** ** One assignment of [load_planet] *)

Lemma load_step_run f g p σ :
  f !! "/planet" = Some g ->
  load_step f p σ =
  match g_children g !! p.1 with
  | Some a => (inr tt, {| self := <[p.1 := loaded p.2 a]> (self σ);
                          trace := trace σ |})
  | None => (inl (NoSuchNodeError p.1), σ)
  end.
Proof.
  intros Hg. destruct p as [name [c|]]; simpl;
    unfold load_step, load_field, load_field_div, np_array, get_node; simpl;
    rewrite Hg; simpl;
    unfold mbind, Py_bind, lift; simpl;
    by destruct (g_children g !! name).
Qed.

Lemma load_steps_cons f p l' σ :
  load_steps f (p :: l') σ = (load_step f p ;; load_steps f l') σ.
Proof.
  destruct l' as [|q l']; [|done]. simpl.
  unfold mbind, Py_bind. by destruct (load_step f p σ) as [[e|[]] σ'].
Qed.

(** The walk stops at the first missing field; it touches only attributes
    named in the table and never the trace. *)
Lemma load_steps_spec f g (tbl : list (string * option F)) σ :
  f !! "/planet" = Some g ->
  exists r o,
    load_steps f tbl σ = (r, {| self := o; trace := trace σ |}) /\
    (forall k, k ∉ tbl.*1 -> o !! k = self σ !! k) /\
    ((forall name, name ∈ tbl.*1 -> is_Some (g_children g !! name)) ->
       r = inr tt /\
       (NoDup (tbl.*1) -> forall n c a, (n, c) ∈ tbl ->
          g_children g !! n = Some a -> o !! n = Some (loaded c a))) /\
    ((exists name, name ∈ tbl.*1 /\ g_children g !! name = None) ->
       exists n, r = inl (NoSuchNodeError n)).
Proof.
  intros Hg. revert σ. induction tbl as [|p tbl IH]; intros σ.
  - exists (inr tt), (self σ). simpl. rewrite state_eta.
    split; [done|]. split; [done|]. split.
    + intros _. split; [done|]. intros _ n c a Hin. by apply elem_of_nil in Hin.
    + intros (name & Hin & _). by apply elem_of_nil in Hin.
  - rewrite load_steps_cons. unfold mbind, Py_bind.
    rewrite (load_step_run f g p σ Hg).
    destruct (g_children g !! p.1) as [a|] eqn:Hp.
    + destruct (IH {| self := <[p.1 := loaded p.2 a]> (self σ);
                      trace := trace σ |})
        as (r & o & Hrun & Hframe & Hok & Hfail).
      exists r, o. simpl in *. split; [done|]. split; [|split].
      * intros k Hk. apply not_elem_of_cons in Hk as [Hk1 Hk2].
        rewrite (Hframe k Hk2). by rewrite lookup_insert_ne.
      * intros Hall. destruct Hok as [-> Hval].
        { intros name Hin. apply Hall. by apply elem_of_cons; right. }
        split; [done|]. intros Hnd n c a' Hin Hn.
        apply NoDup_cons in Hnd as [Hfresh Hnd].
        apply elem_of_cons in Hin as [<-|Hin].
        -- simpl in *. rewrite (Hframe n Hfresh).
           rewrite lookup_insert_eq. congruence.
        -- by apply (Hval Hnd n c a').
      * intros (name & Hin & Hnone). apply Hfail.
        exists name. split; [|done].
        apply elem_of_cons in Hin as [->|Hin]; [congruence|done].
    + exists (inl (NoSuchNodeError p.1)), (self σ). rewrite state_eta.
      split; [done|]. split; [done|]. split.
      * intros Hall. destruct (Hall p.1) as [a Ha]; [by left|congruence].
      * intros _. by eexists.
Qed.

(** ** The comprehension over [dir] *)

Lemma is_public_String c q :
  is_public (String c q) = if decide (c = "_"%char) then false else true.
Proof.
  unfold is_public. cbn -[Ascii.ascii_dec].
  destruct (Ascii.ascii_dec "_" c), (decide (c = "_"%char));
    destruct q; cbn; congruence.
Qed.

Lemma public_names_inv names qs :
  public_names names = inr qs -> qs = List.filter is_public names.
Proof.
  revert qs. induction names as [|q names IH]; intros qs; simpl.
  - by intros [= <-].
  - destruct q as [|c q]; simpl; [done|].
    destruct (public_names names) as [e|tl]; simpl; [done|].
    intros [= <-]. rewrite <- (IH tl eq_refl).
    cbn [List.filter]. rewrite is_public_String.
    by destruct (decide (c = "_"%char)).
Qed.

Lemma public_names_total names :
  Forall (fun q => q <> "") names -> exists qs, public_names names = inr qs.
Proof.
  induction 1 as [|q names Hq _ [qs IH]]; simpl; [by eexists|].
  destruct q as [|c q]; [done|]. simpl. rewrite IH. simpl. by eexists.
Qed.

Lemma public_names_error names e :
  public_names names = inl e -> e = IndexError.
Proof.
  induction names as [|q names IH]; simpl; [done|].
  destruct q as [|c q]; simpl; [by intros [= <-]|].
  destruct (public_names names) as [e'|tl]; simpl; [|done].
  intros [= <-]. by apply IH.
Qed.

(** ** [load_planet], one outcome at a time *)

#[local] Arguments load_steps : simpl never.

Lemma load_planet_run fs path σ :
  load_planet fs path σ =
  match h5_files fs !! path with
  | None => (inl (OSError path), σ)
  | Some f =>
      let closed o := {| self := o;
                         trace := (trace σ ++ [EvOpen path]) ++ [EvClose path] |} in
      match f !! "/planet" with
      | None => (inl (NoSuchNodeError "/planet"), closed (self σ))
      | Some g =>
          match public_names (g_dir g) with
          | inl e => (inl e, closed (self σ))
          | inr qs =>
              let '(r, σ') :=
                load_steps f planet_fields
                  {| self := <["disc_quantities" := VList qs]> (self σ);
                     trace := trace σ ++ [EvOpen path] |} in
              (r, {| self := self σ'; trace := trace σ' ++ [EvClose path] |})
          end
      end
  end.
Proof.
  rewrite load_planet_table. unfold with_open_file.
  destruct (h5_files fs !! path) as [f|]; [|done].
  unfold mbind at 1, Py_bind at 1, emit; simpl.
  unfold get_node. destruct (f !! "/planet") as [g|]; [|done].
  unfold mbind at 1, Py_bind at 1, lift at 1; simpl.
  unfold mbind at 1, Py_bind at 1, lift at 1; simpl.
  destruct (public_names (g_dir g)) as [e|qs]; [done|].
  unfold mbind at 1, Py_bind at 1, setattr; simpl. done.
Qed.

Lemma disc_quantities_not_field : "disc_quantities" ∉ (@planet_fields num).*1.
Proof. apply (bool_decide_unpack _). by vm_compute. Qed.

Ltac in_table := repeat first [ apply list_elem_of_here | apply list_elem_of_further ].

(** A valid file loads: every field of the table ends as [loaded] says. *)
Lemma load_planet_valid fs path g σ :
  valid_file fs path g ->
  exists σ',
    load_planet fs path σ = (inr tt, σ') /\
    forall n c a, (n, c) ∈ planet_fields -> g_children g !! n = Some a ->
      self σ' !! n = Some (loaded c a).
Proof.
  intros ((f & Hf & Hg) & Hdir & Hall).
  rewrite load_planet_run, Hf. simpl. rewrite Hg.
  destruct (public_names_total _ Hdir) as [qs ->].
  destruct (load_steps_spec f g planet_fields
              {| self := <["disc_quantities" := VList qs]> (self σ);
                 trace := trace σ ++ [EvOpen path] |} Hg)
    as (r & o & -> & _ & Hok & _).
  destruct (Hok Hall) as [-> Hval]. specialize (Hval planet_fields_NoDup).
  eexists. split; [done|]. done.
Qed.

(** C1: for every valid input file, [load_planet] returns normally, the
    semi-major-axis attribute [a_p] is the stored array divided element by
    element by [AU], the elapsed-time attribute [t] is the stored array
    divided element by element by [Myr], and every other field of the
    table holds the stored array as it is. *)
Theorem load_planet_rescales_two_fields fs path g σ :
  valid_file fs path g ->
  exists σ',
    load_planet fs path σ = (inr tt, σ') /\
    (forall raw, g_children g !! "a_p" = Some raw ->
       exists a, self σ' !! "a_p" = Some (VArr a) /\ shape a = shape raw /\
                 forall idx, item a idx = fdiv (item raw idx) AU) /\
    (forall raw, g_children g !! "t" = Some raw ->
       exists a, self σ' !! "t" = Some (VArr a) /\ shape a = shape raw /\
                 forall idx, item a idx = fdiv (item raw idx) Myr) /\
    (forall name raw, (name, None) ∈ planet_fields ->
       g_children g !! name = Some raw ->
       self σ' !! name = Some (VArr raw)).
Proof.
  intros Hvalid. destruct (load_planet_valid fs path g σ Hvalid)
    as (σ' & Hrun & Hval).
  exists σ'. split; [done|]. split; [|split].
  - intros raw Hraw. exists (true_divide raw AU). split; [|done].
    apply (Hval "a_p" (Some AU) raw); [in_table|done].
  - intros raw Hraw. exists (true_divide raw Myr). split; [|done].
    apply (Hval "t" (Some Myr) raw); [in_table|done].
  - intros name raw Hin Hraw. by apply (Hval name None raw).
Qed.

(** C8: in every outcome of [load_planet] (normal return or an exception
    raised while the group or a field is read) the file handle opened by
    the call has been closed by the call; when the file cannot be opened
    no handle is acquired. *)
Theorem load_planet_releases_handle fs path σ :
  trace (load_planet fs path σ).2 =
  (trace σ ++ match h5_files fs !! path with
              | Some _ => [EvOpen path; EvClose path]
              | None => []
              end)%list.
Proof.
  rewrite load_planet_run.
  destruct (h5_files fs !! path) as [f|]; simpl; [|by rewrite app_nil_r].
  destruct (f !! "/planet") as [g|] eqn:Hg; simpl; [|by rewrite <- app_assoc].
  destruct (public_names (g_dir g)) as [e|qs]; simpl; [by rewrite <- app_assoc|].
  destruct (load_steps_spec f g planet_fields
              {| self := <["disc_quantities" := VList qs]> (self σ);
                 trace := trace σ ++ [EvOpen path] |} Hg)
    as (r & o & -> & _). simpl. by rewrite <- app_assoc.
Qed.

(** C10: a load that returns normally has set the attribute
    [disc_quantities], which is neither a field of the table nor one of the
    thirteen options, to the names [dir] reports for the "/planet" group
    that do not begin with an underscore, in their order; and in every
    outcome, an attribute changed by the call implies [disc_quantities] was
    set that way first. *)
Theorem load_planet_sets_disc_quantities fs path σ r σ' :
  load_planet fs path σ = (r, σ') ->
  (r = inr tt \/ exists k, self σ' !! k <> self σ !! k) ->
  ("disc_quantities" ∉ (@planet_fields num).*1) /\
  ("disc_quantities" ∉ config_options.*2) /\
  exists f g,
    h5_files fs !! path = Some f /\ f !! "/planet" = Some g /\
    self σ' !! "disc_quantities" =
      Some (VList (List.filter is_public (g_dir g))).
Proof.
  intros Hrun Hchanged.
  split; [apply disc_quantities_not_field|].
  split; [apply (bool_decide_unpack _); by vm_compute|].
  revert Hrun Hchanged.
  rewrite load_planet_run.
  destruct (h5_files fs !! path) as [f|]; simpl.
  2:{ intros [= <- <-] [|[k Hk]]; done. }
  destruct (f !! "/planet") as [g|] eqn:Hg; simpl.
  2:{ intros [= <- <-] [|[k Hk]]; done. }
  destruct (public_names (g_dir g)) as [e|qs] eqn:Hqs; simpl.
  { intros [= <- <-] [|[k Hk]]; done. }
  destruct (load_steps_spec f g planet_fields
              {| self := <["disc_quantities" := VList qs]> (self σ);
                 trace := trace σ ++ [EvOpen path] |} Hg)
    as (r' & o & -> & Hframe & _).
  simpl. intros [= <- <-] _. exists f, g. split; [done|]. split; [done|].
  simpl. rewrite (Hframe _ disc_quantities_not_field). simpl.
  rewrite lookup_insert_eq. by rewrite (public_names_inv _ _ Hqs).
Qed.

(** A load that returns normally found the group and all its fields, and
    left each field of the table as [loaded] says. *)
Lemma load_planet_ok_inv fs path σ σ' :
  load_planet fs path σ = (inr tt, σ') ->
  exists f g,
    h5_files fs !! path = Some f /\ f !! "/planet" = Some g /\
    (forall name, name ∈ planet_fields.*1 -> is_Some (g_children g !! name)) /\
    (forall n c a, (n, c) ∈ planet_fields -> g_children g !! n = Some a ->
       self σ' !! n = Some (loaded c a)).
Proof.
  rewrite load_planet_run.
  destruct (h5_files fs !! path) as [f|]; simpl; [|done].
  destruct (f !! "/planet") as [g|] eqn:Hg; simpl; [|done].
  destruct (public_names (g_dir g)) as [e|qs]; simpl; [done|].
  destruct (load_steps_spec f g planet_fields
              {| self := <["disc_quantities" := VList qs]> (self σ);
                 trace := trace σ ++ [EvOpen path] |} Hg)
    as (r & o & -> & _ & Hok & Hfail).
  simpl. intros [= -> <-]. exists f, g. split; [done|]. split; [done|].
  assert (Hall : forall name, name ∈ planet_fields.*1 ->
                   is_Some (g_children g !! name)).
  { intros name Hin. destruct (g_children g !! name) eqn:Hn; [by eexists|].
    destruct Hfail as [n Hn']; [by exists name|done]. }
  split; [done|]. destruct (Hok Hall) as [_ Hval].
  simpl. by apply Hval, planet_fields_NoDup.
Qed.

(** ** One assignment of [load_parameters_from_config] *)

Lemma merge_option_run (section : gmap string pyval) name σ :
  merge_option section name σ =
  match eval_kwargs (dict_get section name) with
  | inr v => (inr tt, {| self := <[name := v]> (self σ); trace := trace σ |})
  | inl e => (inl e, σ)
  end.
Proof.
  unfold merge_option, mbind, Py_bind, lift, setattr. simpl.
  by destruct (eval_kwargs (dict_get section name)).
Qed.

Lemma merge_steps_cons config p tbl σ :
  merge_steps config (p :: tbl) σ =
  (merge_option (section_of config p.1) p.2 ;; merge_steps config tbl) σ.
Proof.
  destruct tbl as [|q tbl]; [|done]. simpl.
  unfold mbind, Py_bind.
  by destruct (merge_option (section_of config p.1) p.2 σ) as [[e|[]] σ'].
Qed.

(** The walk stops at the first option whose evaluation raises; it touches
    only attributes named in the table and never the trace. *)
Lemma merge_steps_spec config (tbl : list (string * string)) σ :
  exists r o,
    merge_steps config tbl σ = (r, {| self := o; trace := trace σ |}) /\
    (forall k, k ∉ tbl.*2 -> o !! k = self σ !! k) /\
    (r = inr tt -> NoDup (tbl.*2) -> forall sec name, (sec, name) ∈ tbl ->
       exists v, eval_kwargs (dict_get (section_of config sec) name) = inr v /\
                 o !! name = Some v) /\
    ((forall sec name, (sec, name) ∈ tbl ->
        exists v, eval_kwargs (dict_get (section_of config sec) name) = inr v) ->
     r = inr tt).
Proof.
  revert σ. induction tbl as [|p tbl IH]; intros σ.
  - exists (inr tt), (self σ). simpl. rewrite state_eta.
    split; [done|]. split; [done|]. split; [|done].
    intros _ _ sec name Hin. by apply elem_of_nil in Hin.
  - rewrite merge_steps_cons. unfold mbind, Py_bind.
    rewrite merge_option_run.
    destruct (eval_kwargs (dict_get (section_of config p.1) p.2))
      as [e|v] eqn:Hp.
    + exists (inl e), (self σ). rewrite state_eta.
      split; [done|]. split; [done|]. split; [done|].
      intros Hall. destruct (Hall p.1 p.2) as [v Hv]; [|congruence].
      destruct p; by left.
    + destruct (IH {| self := <[p.2 := v]> (self σ); trace := trace σ |})
        as (r & o & Hrun & Hframe & Hok & Htot).
      exists r, o. simpl in *. split; [done|]. split; [|split].
      * intros k Hk. apply not_elem_of_cons in Hk as [Hk1 Hk2].
        rewrite (Hframe k Hk2). by rewrite lookup_insert_ne.
      * intros Hr Hnd sec name Hin.
        apply NoDup_cons in Hnd as [Hfresh Hnd].
        apply elem_of_cons in Hin as [<-|Hin].
        -- simpl in *. exists v. split; [done|].
           rewrite (Hframe name Hfresh). by rewrite lookup_insert_eq.
        -- by apply (Hok Hr Hnd).
      * intros Hall. apply Htot. intros sec name Hin.
        apply Hall. by right.
Qed.

#[local] Arguments merge_steps : simpl never.

Lemma load_parameters_run fs path σ :
  load_parameters_from_config fs path σ =
  match import_config fs path with
  | inl e => (inl e, σ)
  | inr config => merge_steps config config_options σ
  end.
Proof.
  rewrite load_parameters_table. unfold mbind, Py_bind, lift.
  by destruct (import_config fs path).
Qed.

(** ** The constructor, stage by stage *)

Lemma Planet_class_init_run elems mols fs file_path config_path σ :
  Planet_class_init elems mols fs file_path config_path σ =
  match load_planet fs file_path σ with
  | (inl e, σ1) => (inl e, σ1)
  | (inr _, σ1) =>
      match load_parameters_from_config fs config_path σ1 with
      | (inl e, σ2) => (inl e, σ2)
      | (inr _, σ2) =>
          match Planet_atmo elems mols (self σ2) with
          | inl e => (inl e, σ2)
          | inr atmo =>
              let with_atmo := <["atmo" := VObj atmo]> (self σ2) in
              match Planet_core elems mols with_atmo with
              | inl e => (inl e, {| self := with_atmo; trace := trace σ2 |})
              | inr core =>
                  (inr tt, {| self := <["core" := VObj core]> with_atmo;
                              trace := trace σ2 |})
              end
          end
      end
  end.
Proof.
  unfold Planet_class_init, mbind, Py_bind.
  destruct (load_planet fs file_path σ) as [[e|u] σ1]; [done|].
  destruct (load_parameters_from_config fs config_path σ1) as [[e|u'] σ2];
    [done|].
  unfold get_self, lift, setattr; simpl.
  destruct (Planet_atmo elems mols (self σ2)) as [e|atmo]; [done|]. simpl.
  by destruct (Planet_core elems mols (<["atmo" := VObj atmo]> (self σ2))).
Qed.

Lemma Planet_class_inv elems mols fs file_path config_path rec :
  Planet_class elems mols fs file_path config_path = inr rec ->
  exists σ1 σ2 atmo core,
    load_planet fs file_path fresh = (inr tt, σ1) /\
    load_parameters_from_config fs config_path σ1 = (inr tt, σ2) /\
    Planet_atmo elems mols (self σ2) = inr atmo /\
    Planet_core elems mols (<["atmo" := VObj atmo]> (self σ2)) = inr core /\
    rec = <["core" := VObj core]> (<["atmo" := VObj atmo]> (self σ2)).
Proof.
  unfold Planet_class. rewrite Planet_class_init_run.
  destruct (load_planet fs file_path fresh) as [[e|[]] σ1] eqn:Hl; [done|].
  destruct (load_parameters_from_config fs config_path σ1)
    as [[e|[]] σ2] eqn:Hm; [done|].
  destruct (Planet_atmo elems mols (self σ2)) as [e|atmo] eqn:Ha; [done|].
  simpl.
  destruct (Planet_core elems mols (<["atmo" := VObj atmo]> (self σ2)))
    as [e|core] eqn:Hc; [done|].
  simpl. intros [= <-]. by exists σ1, σ2, atmo, core.
Qed.

Lemma Planet_class_load_fails elems mols fs file_path config_path e σ1 :
  load_planet fs file_path fresh = (inl e, σ1) ->
  Planet_class elems mols fs file_path config_path = inl e.
Proof.
  intros Hload. unfold Planet_class. by rewrite Planet_class_init_run, Hload.
Qed.

Lemma view_names_not_options :
  ("atmo" ∉ config_options.*2) /\ ("core" ∉ config_options.*2).
Proof. split; apply (bool_decide_unpack _); by vm_compute. Qed.

Lemma a_p_is_option : ("config_planet", "a_p") ∈ config_options.
Proof. in_table. Qed.

Lemma a_p_is_field : ("a_p", Some AU) ∈ planet_fields.
Proof. in_table. Qed.

(** What the constructed instance holds for the thirteen options. *)
Lemma Planet_class_options elems mols fs file_path config_path rec :
  Planet_class elems mols fs file_path config_path = inr rec ->
  exists config,
    import_config fs config_path = inr config /\
    forall sec name, (sec, name) ∈ config_options ->
      exists v,
        eval_kwargs (dict_get (section_of config sec) name) = inr v /\
        rec !! name = Some v.
Proof.
  intros (σ1 & σ2 & atmo & core & _ & Hmerge & _ & _ & ->)%Planet_class_inv.
  rewrite load_parameters_run in Hmerge.
  destruct (import_config fs config_path) as [e|config]; [done|].
  exists config. split; [done|]. intros sec name Hin.
  destruct (merge_steps_spec config config_options σ1)
    as (r & o & Hrun & _ & Hok & _).
  rewrite Hrun in Hmerge. injection Hmerge as -> <-.
  destruct (Hok eq_refl config_options_NoDup sec name Hin) as (v & Hv & Ho).
  exists v. split; [done|]. simpl.
  assert (Hname : name ∈ config_options.*2).
  { apply list_elem_of_fmap. by exists (sec, name). }
  destruct view_names_not_options as [Hatmo Hcore].
  rewrite !lookup_insert_ne; [done|..]; by intros <-.
Qed.


Lemma import_config_parsed fs path config :
  cfg_files fs !! path = Some (Parsed config) ->
  import_config fs path = inr config.
Proof. unfold import_config. by intros ->. Qed.

Lemma option_sections sec name :
  (sec, name) ∈ config_options ->
  sec = "config_planet" \/ sec = "config_planetesimal_accretion".
Proof.
  unfold config_options. intros Hin.
  repeat (apply elem_of_cons in Hin as [[= -> ->]|Hin]; [by auto|]).
  by apply elem_of_nil in Hin.
Qed.

(** C4: on the constructed instance each of the thirteen options holds the
    evaluated value of the entry its own section gives it and the null
    value when its own section gives none, whatever the other section
    holds; so a configuration without both sections leaves all thirteen
    null. *)
Theorem config_options_from_own_section elems mols fs file_path config_path
    config rec :
  cfg_files fs !! config_path = Some (Parsed config) ->
  Planet_class elems mols fs file_path config_path = inr rec ->
  (forall sec name, (sec, name) ∈ config_options ->
     match section_of config sec !! name with
     | None => rec !! name = Some VNone
     | Some text => exists v, eval_kwargs text = inr v /\ rec !! name = Some v
     end) /\
  (config !! "config_planet" = None ->
   config !! "config_planetesimal_accretion" = None ->
   forall sec name, (sec, name) ∈ config_options -> rec !! name = Some VNone).
Proof.
  intros Hcfg Hrec.
  destruct (Planet_class_options _ _ _ _ _ _ Hrec) as (config' & Hc & Hopt).
  rewrite (import_config_parsed _ _ _ Hcfg) in Hc. injection Hc as <-.
  assert (Hown : forall sec name, (sec, name) ∈ config_options ->
            match section_of config sec !! name with
            | None => rec !! name = Some VNone
            | Some text =>
                exists v, eval_kwargs text = inr v /\ rec !! name = Some v
            end).
  { intros sec name Hin. destruct (Hopt sec name Hin) as (v & Hv & Hr).
    unfold dict_get in Hv.
    destruct (section_of config sec !! name) as [text|]; simpl in Hv.
    - by exists v.
    - by injection Hv as <-. }
  split; [done|]. intros Hp Ha sec name Hin.
  specialize (Hown sec name Hin).
  destruct (option_sections sec name Hin) as [-> | ->];
    unfold section_of in Hown; [rewrite Hp in Hown | rewrite Ha in Hown];
    simpl in Hown; by rewrite lookup_empty in Hown.
Qed.

(** C6: when the planet section gives [migration] the text "False" and
    [a_p] the text "0.1", the constructed instance holds the boolean false
    for [migration] and, for [a_p], the number the literal "0.1" reads
    as. *)
Theorem config_literals_are_typed elems mols fs file_path config_path
    config section x rec :
  cfg_files fs !! config_path = Some (Parsed config) ->
  config !! "config_planet" = Some section ->
  section !! "migration" = Some (VStr "False") ->
  section !! "a_p" = Some (VStr "0.1") ->
  float_lit "0.1" = Some x ->
  Planet_class elems mols fs file_path config_path = inr rec ->
  rec !! "migration" = Some (VBool false) /\ rec !! "a_p" = Some (VNum x).
Proof.
  intros Hcfg Hsec Hmig Hap Hlit Hrec.
  destruct (Planet_class_options _ _ _ _ _ _ Hrec) as (config' & Hc & Hopt).
  rewrite (import_config_parsed _ _ _ Hcfg) in Hc. injection Hc as <-.
  split.
  - destruct (Hopt "config_planet" "migration") as (v & Hv & ->); [in_table|].
    unfold dict_get, section_of in Hv. rewrite Hsec in Hv. simpl in Hv.
    rewrite Hmig in Hv. simpl in Hv. congruence.
  - destruct (Hopt "config_planet" "a_p") as (v & Hv & ->); [in_table|].
    unfold dict_get, section_of in Hv. rewrite Hsec in Hv. simpl in Hv.
    rewrite Hap in Hv. simpl in Hv. rewrite Hlit in Hv. congruence.
Qed.

(** C9: when the planet section has no entry [a_p] (the section absent
    included), the constructed instance holds the null value for [a_p],
    although [load_planet] had set it to the stored series divided by
    [AU]. *)
Theorem missing_a_p_option_discards_series elems mols fs file_path config_path
    config rec :
  cfg_files fs !! config_path = Some (Parsed config) ->
  section_of config "config_planet" !! "a_p" = None ->
  Planet_class elems mols fs file_path config_path = inr rec ->
  rec !! "a_p" = Some VNone /\
  exists σ1 raw,
    load_planet fs file_path fresh = (inr tt, σ1) /\
    self σ1 !! "a_p" = Some (VArr (true_divide raw AU)).
Proof.
  intros Hcfg Hnone Hrec.
  destruct (Planet_class_options _ _ _ _ _ _ Hrec) as (config' & Hc & Hopt).
  rewrite (import_config_parsed _ _ _ Hcfg) in Hc. injection Hc as <-.
  split.
  - destruct (Hopt _ _ a_p_is_option) as (v & Hv & ->).
    unfold dict_get in Hv. rewrite Hnone in Hv. simpl in Hv. congruence.
  - apply Planet_class_inv in Hrec as (σ1 & _ & _ & _ & Hload & _).
    destruct (load_planet_ok_inv _ _ _ _ Hload)
      as (f & g & _ & _ & Hall & Hval).
    destruct (Hall "a_p") as [raw Hraw].
    { apply list_elem_of_fmap. exists ("a_p", Some AU). split; [done|].
      apply a_p_is_field. }
    exists σ1, raw. split; [done|].
    apply (Hval "a_p" (Some AU) raw a_p_is_field Hraw).
Qed.

(** ** Failure of the load *)

Lemma load_planet_unloadable fs path σ :
  unloadable fs path ->
  exists e σ',
    load_planet fs path σ = (inl e, σ') /\
    (dir_names_nonempty fs path -> not_found_or_format e).
Proof.
  unfold unloadable, dir_names_nonempty. rewrite load_planet_run.
  destruct (h5_files fs !! path) as [f|]; simpl.
  2:{ intros _. by eexists _, _. }
  destruct (f !! "/planet") as [g|] eqn:Hg; simpl.
  2:{ intros _. by eexists _, _. }
  intros Hmissing.
  destruct (public_names (g_dir g)) as [e|qs] eqn:Hqs; simpl.
  { eexists _, _. split; [done|]. intros Hdir.
    destruct (public_names_total _ (Hdir f g eq_refl Hg)) as [qs Hqs'].
    congruence. }
  destruct (load_steps_spec f g planet_fields
              {| self := <["disc_quantities" := VList qs]> (self σ);
                 trace := trace σ ++ [EvOpen path] |} Hg)
    as (r & o & -> & _ & _ & Hfail).
  destruct (Hfail Hmissing) as [n ->]. by eexists _, _.
Qed.

(** C5: when the file cannot be opened, or lacks the "/planet" group or a
    field of the table, the constructor call raises and hands no instance
    to the caller; the exception is the one of the failed open or of the
    missing node ([dir] reporting attribute names, none of them empty). *)
Theorem construction_is_all_or_nothing elems mols fs file_path config_path :
  unloadable fs file_path ->
  exists e,
    Planet_class elems mols fs file_path config_path = inl e /\
    (dir_names_nonempty fs file_path -> not_found_or_format e).
Proof.
  intros Hbad.
  destruct (load_planet_unloadable fs file_path fresh Hbad)
    as (e & σ' & Hload & Hkind).
  exists e. split; [|done]. by eapply Planet_class_load_fails.
Qed.

(** ** The composition views *)

Lemma species_rows_3d (super : pyobj) attr layer comp T L S :
  super !! attr = Some (VArr comp) ->
  shape comp = [T; L; S] ->
  layer < L ->
  exists rows,
    species_rows super attr layer = inr rows /\
    length rows = S /\
    forall i, i < S ->
      exists a, rows !! i = Some a /\ species_series comp layer i a.
Proof.
  intros Hattr Hshape Hlayer.
  unfold species_rows. rewrite Hattr. simpl.
  unfold take_axis1. rewrite Hshape.
  destruct (decide (layer < L)) as [_|]; [|done]. simpl.
  eexists. split; [done|]. split.
  - by rewrite length_fmap, length_seq.
  - intros i Hi. eexists. split.
    + rewrite list_lookup_fmap, lookup_seq_lt by done. done.
    + unfold species_series. rewrite Hshape. by simpl.
Qed.

Lemma assign_each_cons n names a rows (this : gmap string ndarray) :
  assign_each (n :: names) (a :: rows) this =
  assign_each names rows (<[n := a]> this).
Proof. done. Qed.

Lemma assign_each_other names rows (this : gmap string ndarray) name :
  name ∉ take (length rows) names ->
  assign_each names rows this !! name = this !! name.
Proof.
  revert rows this. induction names as [|n names IH]; intros [|a rows] this;
    try done.
  rewrite assign_each_cons. simpl.
  intros [Hne Hnot]%not_elem_of_cons.
  rewrite (IH rows _ Hnot). by rewrite lookup_insert_ne.
Qed.

Lemma assign_each_entry names rows (this : gmap string ndarray) i name a :
  NoDup (take (length rows) names) ->
  names !! i = Some name ->
  rows !! i = Some a ->
  assign_each names rows this !! name = Some a.
Proof.
  revert rows this i. induction names as [|n names IH];
    intros [|b rows] this i; try done.
  rewrite assign_each_cons. simpl.
  intros [Hfresh Hnd]%NoDup_cons. destruct i as [|i]; simpl.
  - intros [= ->] [= ->].
    rewrite (assign_each_other _ _ _ _ Hfresh). by rewrite lookup_insert_eq.
  - by apply IH.
Qed.

Lemma assign_each_is_Some names rows (this : gmap string ndarray) name :
  is_Some (assign_each names rows this !! name) <->
  name ∈ take (length rows) names \/ is_Some (this !! name).
Proof.
  revert rows this. induction names as [|n names IH]; intros [|a rows] this;
    simpl; try (rewrite elem_of_nil; unfold assign_each; simpl; tauto).
  rewrite assign_each_cons, IH, lookup_insert_is_Some, elem_of_cons.
  destruct (decide (n = name)) as [->|Hne]; [tauto|].
  split.
  - intros [?|[?|[_ ?]]]; [left; by right|done|by right].
  - intros [[?|?]|?]; [congruence|by left|by right; right].
Qed.

Lemma assign_each_take names rows (this : gmap string ndarray) :
  assign_each (take (length rows) names) rows this =
  assign_each names rows this.
Proof.
  revert rows this. induction names as [|n names IH]; intros [|a rows] this;
    try done.
  simpl. by rewrite !assign_each_cons, IH.
Qed.

(** What the two loops of a view constructor leave, given the rows of the
    two layers. *)
Lemma fan_out_entries elems mols rows0 rows1 S name :
  length rows0 = S -> length rows1 = S ->
  is_Some (assign_each mols rows1 (assign_each elems rows0 ∅) !! name) <->
  name ∈ take S elems \/ name ∈ take S mols.
Proof.
  intros H0 H1. rewrite !assign_each_is_Some, lookup_empty, H0, H1.
  split.
  - intros [?|[?|[? ?]]]; [by right|by left|done].
  - intros [?|?]; [right; by left|by left].
Qed.

Lemma fan_out_round_trip comp elems mols rows0 rows1 S :
  length rows0 = S -> length rows1 = S ->
  NoDup (take S elems ++ take S mols) ->
  (forall i, i < S ->
     exists a, rows0 !! i = Some a /\ species_series comp 0 i a) ->
  (forall i, i < S ->
     exists a, rows1 !! i = Some a /\ species_series comp 1 i a) ->
  let view := assign_each mols rows1 (assign_each elems rows0 ∅) in
  reconstructs (take S elems) 0 comp view /\
  reconstructs (take S mols) 1 comp view.
Proof.
  intros H0 H1 [Hnde [Hdisj Hndm]]%NoDup_app Hr0 Hr1 view.
  split; intros i name [Hname Hi]%lookup_take_Some.
  - destruct (Hr0 i Hi) as (a & Ha & Hser).
    exists a. split; [|done]. unfold view.
    rewrite assign_each_other.
    + apply (assign_each_entry _ _ _ i); [|done..]. by rewrite H0.
    + rewrite H1. apply Hdisj, elem_of_take. by exists i.
  - destruct (Hr1 i Hi) as (a & Ha & Hser).
    exists a. split; [|done]. unfold view.
    apply (assign_each_entry _ _ _ i); [|done..]. by rewrite H1.
Qed.

(** The loop and the dictionary it leaves. *)
Lemma setattr_each_accepted names rows (this : gmap string ndarray) :
  names_accepted (length rows) names ->
  setattr_each names rows this = inr (assign_each names rows this).
Proof.
  unfold names_accepted. revert rows this.
  induction names as [|n names IH]; intros [|a rows] this; try done.
  simpl. intros [Hn Hrest]%Forall_cons.
  unfold setattr_view. rewrite Hn. simpl. by rewrite IH.
Qed.

Lemma setattr_each_ok_inv names rows (this view : gmap string ndarray) :
  setattr_each names rows this = inr view ->
  names_accepted (length rows) names /\ view = assign_each names rows this.
Proof.
  unfold names_accepted. revert rows this.
  induction names as [|n names IH]; intros [|a rows] this; simpl;
    try (intros [= <-]; by split; [constructor|]).
  unfold setattr_view. destruct (refused n) eqn:Hn; simpl; [done|].
  intros [Hacc ->]%IH. split; [by constructor|done].
Qed.

Lemma setattr_each_error names rows (this : gmap string ndarray) e :
  setattr_each names rows this = inl e ->
  e = TypeError \/ e = AttributeError "__weakref__".
Proof.
  revert rows this. induction names as [|n names IH]; intros [|a rows] this;
    simpl; try done.
  unfold setattr_view, refused.
  repeat case_decide; simpl; try (intros [= <-]; by auto).
  apply IH.
Qed.

Lemma setattr_each_refuses names rows (this : gmap string ndarray) :
  ~ names_accepted (length rows) names ->
  exists e, setattr_each names rows this = inl e /\
            (e = TypeError \/ e = AttributeError "__weakref__").
Proof.
  intros Hnot. destruct (setattr_each names rows this) as [e|view] eqn:Hrun.
  - exists e. split; [done|]. by eapply setattr_each_error.
  - by apply setattr_each_ok_inv in Hrun as [Hacc _].
Qed.

Lemma Planet_atmo_run (super : pyobj) comp T L S :
  super !! "comp_a" = Some (VArr comp) ->
  shape comp = [T; L; S] ->
  1 < L ->
  exists rows0 rows1,
    length rows0 = S /\ length rows1 = S /\
    (forall i, i < S ->
       exists a, rows0 !! i = Some a /\ species_series comp 0 i a) /\
    (forall i, i < S ->
       exists a, rows1 !! i = Some a /\ species_series comp 1 i a) /\
    forall elems mols,
      names_accepted S elems -> names_accepted S mols ->
      Planet_atmo elems mols super =
        inr (assign_each mols rows1 (assign_each elems rows0 ∅)).
Proof.
  intros Hattr Hshape HL.
  destruct (species_rows_3d super "comp_a" 0 comp T L S Hattr Hshape)
    as (rows0 & Hrun0 & Hlen0 & Hrows0); [lia|].
  destruct (species_rows_3d super "comp_a" 1 comp T L S Hattr Hshape)
    as (rows1 & Hrun1 & Hlen1 & Hrows1); [lia|].
  exists rows0, rows1. repeat (split; [done|]). intros elems mols He Hm.
  unfold Planet_atmo. rewrite Hrun0. simpl.
  rewrite setattr_each_accepted by (by rewrite Hlen0). simpl.
  rewrite Hrun1. simpl. apply setattr_each_accepted. by rewrite Hlen1.
Qed.

Lemma Planet_core_run (super : pyobj) comp T L S :
  super !! "comp_c" = Some (VArr comp) ->
  shape comp = [T; L; S] ->
  1 < L ->
  exists rows0 rows1,
    length rows0 = S /\ length rows1 = S /\
    (forall i, i < S ->
       exists a, rows0 !! i = Some a /\ species_series comp 0 i a) /\
    (forall i, i < S ->
       exists a, rows1 !! i = Some a /\ species_series comp 1 i a) /\
    forall elems mols,
      names_accepted S elems -> names_accepted S mols ->
      Planet_core elems mols super =
        inr (assign_each mols rows1 (assign_each elems rows0 ∅)).
Proof.
  intros Hattr Hshape HL.
  destruct (species_rows_3d super "comp_c" 0 comp T L S Hattr Hshape)
    as (rows0 & Hrun0 & Hlen0 & Hrows0); [lia|].
  destruct (species_rows_3d super "comp_c" 1 comp T L S Hattr Hshape)
    as (rows1 & Hrun1 & Hlen1 & Hrows1); [lia|].
  exists rows0, rows1. repeat (split; [done|]). intros elems mols He Hm.
  unfold Planet_core. rewrite Hrun0. simpl.
  rewrite setattr_each_accepted by (by rewrite Hlen0). simpl.
  rewrite Hrun1. simpl. apply setattr_each_accepted. by rewrite Hlen1.
Qed.

(** C3, as amended: when the names of the two lists are pairwise distinct,
    none of them is a name [setattr] refuses ([__class__], [__dict__],
    [__weakref__]) and each list is as long as the species axis, the view of
    the atmosphere and the view of the core give back, name by name in the
    order of the lists, the per-step sequence of each species of the element
    layer and of the molecule layer. *)
Theorem views_round_trip_for_distinct_names elems mols (super : pyobj)
    comp T L S :
  shape comp = [T; L; S] ->
  1 < L ->
  length elems = S ->
  length mols = S ->
  NoDup (elems ++ mols) ->
  Forall (fun name => refused name = None) (elems ++ mols) ->
  (super !! "comp_a" = Some (VArr comp) ->
   exists view, Planet_atmo elems mols super = inr view /\
     reconstructs elems 0 comp view /\ reconstructs mols 1 comp view) /\
  (super !! "comp_c" = Some (VArr comp) ->
   exists view, Planet_core elems mols super = inr view /\
     reconstructs elems 0 comp view /\ reconstructs mols 1 comp view).
Proof.
  intros Hshape HL He Hm Hnd [Hae Ham]%Forall_app.
  assert (Hnd' : NoDup (take S elems ++ take S mols)).
  { by rewrite !take_ge by lia. }
  assert (Hae' : names_accepted S elems).
  { unfold names_accepted. by rewrite take_ge by lia. }
  assert (Ham' : names_accepted S mols).
  { unfold names_accepted. by rewrite take_ge by lia. }
  split; intros Hattr.
  - destruct (Planet_atmo_run super comp T L S Hattr Hshape HL)
      as (rows0 & rows1 & H0 & H1 & Hr0 & Hr1 & Hrun).
    eexists. split; [by apply Hrun|].
    pose proof (fan_out_round_trip comp elems mols rows0 rows1 S
                  H0 H1 Hnd' Hr0 Hr1) as Hrt.
    by rewrite !take_ge in Hrt by lia.
  - destruct (Planet_core_run super comp T L S Hattr Hshape HL)
      as (rows0 & rows1 & H0 & H1 & Hr0 & Hr1 & Hrun).
    eexists. split; [by apply Hrun|].
    pose proof (fan_out_round_trip comp elems mols rows0 rows1 S
                  H0 H1 Hnd' Hr0 Hr1) as Hrt.
    by rewrite !take_ge in Hrt by lia.
Qed.

(** C7, as amended: whatever the lengths of the two name lists, when
    [setattr] accepts the first [S] names of either list, [S] being the
    length of the species axis, the construction of the view of the
    atmosphere and of the view of the core returns; the view has an entry
    exactly for the names among the first [S] of either list, is the view
    the lists cut to their first [S] names give and, when those names are
    pairwise distinct, maps each of them to the series of the species at
    its position. *)
Theorem views_truncate_to_species_axis elems mols (super : pyobj)
    comp T L S :
  shape comp = [T; L; S] ->
  1 < L ->
  names_accepted S elems ->
  names_accepted S mols ->
  (super !! "comp_a" = Some (VArr comp) ->
   exists view, Planet_atmo elems mols super = inr view /\
     (forall name, is_Some (view !! name) <->
                   name ∈ take S elems \/ name ∈ take S mols) /\
     Planet_atmo (take S elems) (take S mols) super = inr view /\
     (NoDup (take S elems ++ take S mols) ->
      reconstructs (take S elems) 0 comp view /\
      reconstructs (take S mols) 1 comp view)) /\
  (super !! "comp_c" = Some (VArr comp) ->
   exists view, Planet_core elems mols super = inr view /\
     (forall name, is_Some (view !! name) <->
                   name ∈ take S elems \/ name ∈ take S mols) /\
     Planet_core (take S elems) (take S mols) super = inr view /\
     (NoDup (take S elems ++ take S mols) ->
      reconstructs (take S elems) 0 comp view /\
      reconstructs (take S mols) 1 comp view)).
Proof.
  intros Hshape HL Hae Ham.
  assert (Hae' : names_accepted S (take S elems)).
  { unfold names_accepted in *. by rewrite take_take, Nat.min_id. }
  assert (Ham' : names_accepted S (take S mols)).
  { unfold names_accepted in *. by rewrite take_take, Nat.min_id. }
  split; intros Hattr.
  - destruct (Planet_atmo_run super comp T L S Hattr Hshape HL)
      as (rows0 & rows1 & H0 & H1 & Hr0 & Hr1 & Hrun).
    eexists. split; [by apply Hrun|]. split; [|split].
    + intros name. by apply fan_out_entries.
    + rewrite Hrun by done. rewrite <- (assign_each_take mols rows1).
      by rewrite <- (assign_each_take elems rows0), H0, H1.
    + intros Hnd. by apply fan_out_round_trip.
  - destruct (Planet_core_run super comp T L S Hattr Hshape HL)
      as (rows0 & rows1 & H0 & H1 & Hr0 & Hr1 & Hrun).
    eexists. split; [by apply Hrun|]. split; [|split].
    + intros name. by apply fan_out_entries.
    + rewrite Hrun by done. rewrite <- (assign_each_take mols rows1).
      by rewrite <- (assign_each_take elems rows0), H0, H1.
    + intros Hnd. by apply fan_out_round_trip.
Qed.

(** ** The constructor returns on well-formed input *)

Lemma composition_fields :
  ("comp_a", None) ∈ planet_fields /\ ("comp_c", None) ∈ planet_fields /\
  ("comp_a" ∉ config_options.*2) /\ ("comp_c" ∉ config_options.*2).
Proof.
  split; [in_table|]. split; [in_table|].
  split; apply (bool_decide_unpack _); by vm_compute.
Qed.

Lemma Planet_class_returns elems mols fs file_path config_path g config
    ca cc T L S T' L' S' :
  valid_file fs file_path g ->
  g_children g !! "comp_a" = Some ca -> shape ca = [T; L; S] -> 1 < L ->
  g_children g !! "comp_c" = Some cc -> shape cc = [T'; L'; S'] -> 1 < L' ->
  names_accepted S elems -> names_accepted S mols ->
  names_accepted S' elems -> names_accepted S' mols ->
  cfg_files fs !! config_path = Some (Parsed config) ->
  (forall sec name, (sec, name) ∈ config_options ->
     exists v, eval_kwargs (dict_get (section_of config sec) name) = inr v) ->
  exists rec, Planet_class elems mols fs file_path config_path = inr rec.
Proof.
  intros Hvalid Hca Hsa HL Hcc Hsc HL' Hae Ham Hae' Ham' Hcfg Heval.
  destruct composition_fields as (Hfa & Hfc & Hoa & Hoc).
  destruct (load_planet_valid fs file_path g fresh Hvalid)
    as (σ1 & Hload & Hval).
  destruct (merge_steps_spec config config_options σ1)
    as (r & o & Hmerge & Hframe & _ & Htot).
  rewrite (Htot Heval) in Hmerge.
  assert (Ha : o !! "comp_a" = Some (VArr ca)).
  { rewrite (Hframe _ Hoa). apply (Hval _ None _ Hfa Hca). }
  assert (Hc : o !! "comp_c" = Some (VArr cc)).
  { rewrite (Hframe _ Hoc). apply (Hval _ None _ Hfc Hcc). }
  destruct (Planet_atmo_run o ca T L S Ha Hsa HL)
    as (ra0 & ra1 & _ & _ & _ & _ & Hatmo).
  set (atmo := assign_each mols ra1 (assign_each elems ra0 ∅)).
  destruct (Planet_core_run (<["atmo" := VObj atmo]> o) cc T' L' S')
    as (rc0 & rc1 & _ & _ & _ & _ & Hcore); [|done..|].
  { by rewrite lookup_insert_ne. }
  eexists. unfold Planet_class.
  rewrite Planet_class_init_run, Hload, load_parameters_run.
  rewrite (import_config_parsed _ _ _ Hcfg), Hmerge. simpl.
  rewrite Hatmo by done. simpl. fold atmo. by rewrite Hcore.
Qed.

End Properties.

(** * The model run on the example files *)

Section Runs.
Import Rational Example.

Lemma the_inr {A} (d : A) (r : res A) :
  (if r is inr _ then true else false) = true -> r = inr (the d r).
Proof. by destruct r. Qed.

Lemma pair_of_fst {A B} (p : A * B) (a : A) : p.1 = a -> p = (a, p.2).
Proof. destruct p. by intros <-. Qed.

Lemma example_file_valid : valid_file fs "simulation.h5" planet.
Proof.
  split; [|split].
  - exists (<["/planet" := planet]> ∅). split; reflexivity.
  - unfold planet; simpl. repeat constructor; done.
  - apply Forall_forall, (bool_decide_unpack _). vm_compute. exact I.
Qed.

(** The synthetic file of the specification: three steps, elements Fe and
    Si, element layer [[1,2],[3,4],[5,6]]. *)
Example atmo_Fe_Si :
  match record !! "atmo" with
  | Some (VObj atmo) => (to_list <$> atmo !! "Fe", to_list <$> atmo !! "Si")
  | _ => (None, None)
  end = (Some [1; 3; 5]%Q, Some [2; 4; 6]%Q).
Proof. vm_compute. reflexivity. Qed.

Example loaded_a_p_in_AU :
  match self loaded_state !! "a_p" with
  | Some (VArr a) => Qred <$> to_list a
  | _ => []
  end = [1; 2; 0]%Q.
Proof. vm_compute. reflexivity. Qed.

Lemma load_planet_rescales_two_fields_witness :
  valid_file fs "simulation.h5" planet /\
  exists σ',
    load_planet fs "simulation.h5" fresh = (inr tt, σ') /\
    (forall raw, g_children planet !! "a_p" = Some raw ->
       exists a, self σ' !! "a_p" = Some (VArr a) /\ shape a = shape raw /\
                 forall idx, item a idx = fdiv (item raw idx) AU) /\
    (forall raw, g_children planet !! "t" = Some raw ->
       exists a, self σ' !! "t" = Some (VArr a) /\ shape a = shape raw /\
                 forall idx, item a idx = fdiv (item raw idx) Myr) /\
    (forall name raw, (name, None) ∈ planet_fields ->
       g_children planet !! name = Some raw ->
       self σ' !! name = Some (VArr raw)).
Proof.
  split; [exact example_file_valid|].
  exact (load_planet_rescales_two_fields fs "simulation.h5" planet fresh
           example_file_valid).
Defined.

Lemma example_record_built :
  Planet_class elements molecules fs "simulation.h5" "config.yaml" =
  inr record.
Proof. unfold record, bare_record. apply the_inr. vm_compute. reflexivity. Qed.

Lemma example_bare_record_built :
  Planet_class elements molecules fs "simulation.h5" "bare.yaml" =
  inr bare_record.
Proof. unfold record, bare_record. apply the_inr. vm_compute. reflexivity. Qed.

Lemma example_load_run :
  load_planet fs "simulation.h5" fresh = (inr tt, loaded_state).
Proof. unfold loaded_state. apply pair_of_fst. vm_compute. reflexivity. Qed.

Lemma example_bare_config : cfg_files fs !! "bare.yaml" = Some (Parsed ∅).
Proof. reflexivity. Qed.

Lemma example_config :
  cfg_files fs !! "config.yaml" =
  Some (Parsed (<["config_planet" := options]> ∅)).
Proof. reflexivity. Qed.

Lemma load_planet_sets_disc_quantities_witness :
  load_planet fs "simulation.h5" fresh = (inr tt, loaded_state) /\
  ("disc_quantities" ∉ (@planet_fields numeric).*1) /\
  ("disc_quantities" ∉ config_options.*2) /\
  exists f g,
    h5_files fs !! "simulation.h5" = Some f /\ f !! "/planet" = Some g /\
    self loaded_state !! "disc_quantities" =
      Some (VList (List.filter is_public (g_dir g))).
Proof.
  split; [exact example_load_run|].
  exact (load_planet_sets_disc_quantities fs "simulation.h5" fresh (inr tt)
           loaded_state example_load_run (or_introl eq_refl)).
Defined.

Example example_disc_quantities :
  self loaded_state !! "disc_quantities" =
  Some (VList ["M"; "a_p"; "comp_a"; "t"]).
Proof. vm_compute. reflexivity. Qed.


Lemma config_options_from_own_section_witness :
  cfg_files fs !! "bare.yaml" = Some (Parsed ∅) /\
  Planet_class elements molecules fs "simulation.h5" "bare.yaml" =
    inr bare_record /\
  forall sec name, (sec, name) ∈ config_options ->
    bare_record !! name = Some VNone.
Proof.
  split; [exact example_bare_config|].
  split; [exact example_bare_record_built|].
  exact (proj2 (config_options_from_own_section elements molecules fs
                  "simulation.h5" "bare.yaml" ∅ bare_record
                  example_bare_config example_bare_record_built)
           eq_refl eq_refl).
Defined.

Lemma config_literals_are_typed_witness :
  cfg_files fs !! "config.yaml" =
    Some (Parsed (<["config_planet" := options]> ∅)) /\
  float_lit "0.1" = Some (1 # 10)%Q /\
  record !! "migration" = Some (VBool false) /\
  record !! "a_p" = Some (VNum (1 # 10)%Q).
Proof.
  split; [exact example_config|]. split; [reflexivity|].
  exact (config_literals_are_typed elements molecules fs "simulation.h5"
           "config.yaml" (<["config_planet" := options]> ∅) options
           (1 # 10)%Q record example_config eq_refl eq_refl eq_refl eq_refl
           example_record_built).
Defined.

Lemma missing_a_p_option_discards_series_witness :
  cfg_files fs !! "bare.yaml" = Some (Parsed ∅) /\
  section_of (∅ : gmap string (gmap string pyval)) "config_planet" !! "a_p"
    = None /\
  bare_record !! "a_p" = Some VNone /\
  exists σ1 raw,
    load_planet fs "simulation.h5" fresh = (inr tt, σ1) /\
    self σ1 !! "a_p" = Some (VArr (true_divide raw AU)).
Proof.
  split; [exact example_bare_config|]. split; [reflexivity|].
  exact (missing_a_p_option_discards_series elements molecules fs
           "simulation.h5" "bare.yaml" ∅ bare_record example_bare_config
           eq_refl example_bare_record_built).
Defined.

Lemma construction_is_all_or_nothing_witness :
  unloadable fs "empty.h5" /\
  exists e,
    Planet_class elements molecules fs "empty.h5" "config.yaml" = inl e /\
    (dir_names_nonempty fs "empty.h5" -> not_found_or_format e).
Proof.
  assert (Hbad : unloadable fs "empty.h5") by (vm_compute; exact I).
  split; [exact Hbad|].
  exact (construction_is_all_or_nothing elements molecules fs "empty.h5"
           "config.yaml" Hbad).
Defined.

Example example_missing_group :
  Planet_class elements molecules fs "empty.h5" "config.yaml" =
  inl (NoSuchNodeError "/planet").
Proof. vm_compute. reflexivity. Qed.

Example example_missing_file :
  Planet_class elements molecules fs "absent.h5" "config.yaml" =
  inl (OSError "absent.h5").
Proof. vm_compute. reflexivity. Qed.

Lemma views_round_trip_for_distinct_names_witness :
  shape comp = [3; 2; 2] /\ 1 < 2 /\
  length elements = 2 /\ length molecules = 2 /\
  NoDup (elements ++ molecules) /\
  Forall (fun name => refused name = None) (elements ++ molecules) /\
  (exists view, Planet_atmo elements molecules (holder comp) = inr view /\
     reconstructs elements 0 comp view /\ reconstructs molecules 1 comp view) /\
  (exists view, Planet_core elements molecules (holder comp) = inr view /\
     reconstructs elements 0 comp view /\ reconstructs molecules 1 comp view).
Proof.
  assert (Hnd : NoDup (elements ++ molecules)).
  { apply (bool_decide_unpack _). vm_compute. exact I. }
  assert (HL : 1 < 2) by lia.
  assert (Hacc : Forall (fun name => refused name = None)
                   (elements ++ molecules)).
  { repeat constructor. }
  split; [reflexivity|]. split; [exact HL|].
  split; [reflexivity|]. split; [reflexivity|]. split; [exact Hnd|].
  split; [exact Hacc|].
  pose proof (views_round_trip_for_distinct_names elements molecules
                (holder comp) comp 3 2 2 eq_refl HL eq_refl eq_refl Hnd Hacc)
    as [Hatmo Hcore].
  split; [apply Hatmo|apply Hcore]; reflexivity.
Defined.

Lemma views_truncate_to_species_axis_witness :
  shape comp = [3; 2; 2] /\ 1 < 2 /\
  length ["Fe"; "Si"; "Mg"] <> 2 /\ length ["CO"] <> 2 /\
  names_accepted 2 ["Fe"; "Si"; "Mg"] /\ names_accepted 2 ["CO"] /\
  exists view,
    Planet_atmo ["Fe"; "Si"; "Mg"] ["CO"] (holder comp) = inr view /\
    (forall name, is_Some (view !! name) <->
                  name ∈ take 2 ["Fe"; "Si"; "Mg"] \/ name ∈ take 2 ["CO"]) /\
    Planet_atmo (take 2 ["Fe"; "Si"; "Mg"]) (take 2 ["CO"]) (holder comp)
      = inr view /\
    (NoDup (take 2 ["Fe"; "Si"; "Mg"] ++ take 2 ["CO"]) ->
     reconstructs (take 2 ["Fe"; "Si"; "Mg"]) 0 comp view /\
     reconstructs (take 2 ["CO"]) 1 comp view).
Proof.
  assert (HL : 1 < 2) by lia.
  assert (Hae : names_accepted 2 ["Fe"; "Si"; "Mg"]) by repeat constructor.
  assert (Ham : names_accepted 2 ["CO"]) by repeat constructor.
  split; [reflexivity|]. split; [exact HL|].
  split; [simpl; lia|]. split; [simpl; lia|].
  split; [exact Hae|]. split; [exact Ham|].
  apply (proj1 (views_truncate_to_species_axis ["Fe"; "Si"; "Mg"] ["CO"]
                  (holder comp) comp 3 2 2 eq_refl HL Hae Ham)).
  reflexivity.
Defined.

(** C7 as the specification words it fails on a name [setattr] refuses: with
    three element names against two species the construction of the view
    raises on [__class__]; the same name past the species axis is never
    reached and does no harm. *)
Lemma truncation_fails_on_refused_name :
  shape comp = [3; 2; 2] /\
  length ["__class__"; "Si"; "Mg"] <> 2 /\
  Planet_atmo ["__class__"; "Si"; "Mg"] ["CO"] (holder comp) = inl TypeError /\
  Planet_core ["__class__"; "Si"; "Mg"] ["CO"] (holder comp) = inl TypeError /\
  Planet_atmo ["Fe"; "Si"; "__class__"] ["CO"] (holder comp) =
    inr (atmo_of ["Fe"; "Si"; "__class__"] ["CO"] comp).
Proof.
  split; [reflexivity|]. split; [simpl; lia|].
  split; [vm_compute; reflexivity|]. split; [vm_compute; reflexivity|].
  unfold atmo_of. apply the_inr. vm_compute. reflexivity.
Qed.

Example example_truncated_view :
  let view := atmo_of ["Fe"; "Si"; "Mg"] ["CO"] comp in
  (to_list <$> view !! "Fe", to_list <$> view !! "Si",
   to_list <$> view !! "Mg", to_list <$> view !! "CO") =
  (Some [1; 3; 5]%Q, Some [2; 4; 6]%Q, None, Some [10; 30; 50]%Q).
Proof. vm_compute. reflexivity. Qed.

(** The round trip of C3 as the specification words it, for every pair of
    name lists of the right length, fails: a name that occurs twice in the
    element list keeps the series of its last occurrence, a name the two
    lists share keeps the series of the molecule, and a name [setattr]
    refuses gives no view at all. *)
Lemma round_trip_fails_on_repeated_names :
  shape one_step = [1; 2; 2] /\
  (length ["__class__"; "Si"] = 2 /\ length ["CO"; "H2O"] = 2 /\
   NoDup (["__class__"; "Si"] ++ ["CO"; "H2O"]) /\
   Planet_atmo ["__class__"; "Si"] ["CO"; "H2O"] (holder one_step) =
     inl TypeError) /\
  (length ["Fe"; "Fe"] = 2 /\ length ["CO"; "H2O"] = 2 /\
   Planet_atmo ["Fe"; "Fe"] ["CO"; "H2O"] (holder one_step) =
     inr (atmo_of ["Fe"; "Fe"] ["CO"; "H2O"] one_step) /\
   ~ reconstructs ["Fe"; "Fe"] 0 one_step
       (atmo_of ["Fe"; "Fe"] ["CO"; "H2O"] one_step)) /\
  (length ["C"; "O"] = 2 /\ length ["CO"; "C"] = 2 /\
   Planet_atmo ["C"; "O"] ["CO"; "C"] (holder one_step) =
     inr (atmo_of ["C"; "O"] ["CO"; "C"] one_step) /\
   ~ reconstructs ["C"; "O"] 0 one_step
       (atmo_of ["C"; "O"] ["CO"; "C"] one_step)).
Proof.
  split; [reflexivity|]. split; [|split].
  - split; [reflexivity|]. split; [reflexivity|].
    split; [apply (bool_decide_unpack _); vm_compute; exact I|].
    vm_compute. reflexivity.
  - split; [reflexivity|]. split; [reflexivity|].
    split; [unfold atmo_of; apply the_inr; vm_compute; reflexivity|].
    intros Hrec. destruct (Hrec 0 "Fe" eq_refl) as (a & Ha & _ & Hitem).
    vm_compute in Ha. injection Ha as <-.
    specialize (Hitem 0 (le_n 1)). vm_compute in Hitem. discriminate.
  - split; [reflexivity|]. split; [reflexivity|].
    split; [unfold atmo_of; apply the_inr; vm_compute; reflexivity|].
    intros Hrec. destruct (Hrec 0 "C" eq_refl) as (a & Ha & _ & Hitem).
    vm_compute in Ha. injection Ha as <-.
    specialize (Hitem 0 (le_n 1)). vm_compute in Hitem. discriminate.
Qed.

End Runs.

(** * Further properties *)

Section MoreProperties.
Context {num : Numeric}.
Implicit Types (σ : state) (fs : filesystem) (g : group).
Local Open Scope list_scope.

#[local] Arguments load_steps : simpl never.
#[local] Arguments merge_steps : simpl never.

(** ** [load_planet] *)

Lemma public_names_ok_inv names qs :
  public_names names = inr qs -> Forall (fun q => q <> "") names.
Proof.
  revert qs. induction names as [|q names IH]; intros qs; [by constructor|].
  simpl. destruct q as [|c q]; simpl; [done|].
  destruct (public_names names) as [e|tl] eqn:Htl; simpl; [done|].
  intros _. constructor; [done|]. by eapply IH.
Qed.

(** Everything a normal return of [load_planet] tells. *)
Lemma load_planet_lookup fs path σ σ' :
  load_planet fs path σ = (inr tt, σ') ->
  exists g,
    valid_file fs path g /\
    self σ' !! "disc_quantities" =
      Some (VList (List.filter is_public (g_dir g))) /\
    (forall n c a, (n, c) ∈ planet_fields -> g_children g !! n = Some a ->
       self σ' !! n = Some (loaded c a)) /\
    (forall k, k <> "disc_quantities" -> k ∉ planet_fields.*1 ->
       self σ' !! k = self σ !! k) /\
    trace σ' = (trace σ ++ [EvOpen path; EvClose path])%list.
Proof.
  rewrite load_planet_run.
  destruct (h5_files fs !! path) as [f|] eqn:Hf; simpl; [|done].
  destruct (f !! "/planet") as [g|] eqn:Hg; simpl; [|done].
  destruct (public_names (g_dir g)) as [e|qs] eqn:Hqs; simpl; [done|].
  destruct (load_steps_spec f g planet_fields
              {| self := <["disc_quantities" := VList qs]> (self σ);
                 trace := trace σ ++ [EvOpen path] |} Hg)
    as (r & o & -> & Hframe & Hok & Hfail).
  simpl in *. intros [= -> <-]. exists g.
  assert (Hall : forall name, name ∈ planet_fields.*1 ->
                   is_Some (g_children g !! name)).
  { intros name Hin. destruct (g_children g !! name) eqn:Hn; [by eexists|].
    destruct Hfail as [n Hn']; [by exists name|done]. }
  destruct (Hok Hall) as [_ Hval]. simpl.
  split; [|split; [|split; [|split]]].
  - split; [by exists f|]. split; [by eapply public_names_ok_inv|done].
  - rewrite (Hframe _ disc_quantities_not_field), lookup_insert_eq.
    by rewrite (public_names_inv _ _ Hqs).
  - by apply Hval, planet_fields_NoDup.
  - intros k Hk Hnot. rewrite (Hframe k Hnot). by rewrite lookup_insert_ne.
  - by rewrite <- app_assoc.
Qed.

(** X1: whatever its outcome, [load_planet] leaves every attribute other
    than [disc_quantities] and the fields of its table as it found it. *)
Theorem load_planet_frame fs path σ k :
  k <> "disc_quantities" ->
  k ∉ (@planet_fields num).*1 ->
  self (load_planet fs path σ).2 !! k = self σ !! k.
Proof.
  intros Hk Hnot. rewrite load_planet_run.
  destruct (h5_files fs !! path) as [f|]; simpl; [|done].
  destruct (f !! "/planet") as [g|] eqn:Hg; simpl; [|done].
  destruct (public_names (g_dir g)) as [e|qs]; simpl; [done|].
  destruct (load_steps_spec f g planet_fields
              {| self := <["disc_quantities" := VList qs]> (self σ);
                 trace := trace σ ++ [EvOpen path] |} Hg)
    as (r & o & -> & Hframe & _).
  simpl in *. rewrite (Hframe k Hnot). by rewrite lookup_insert_ne.
Qed.

Lemma load_steps_first_missing f g before name c after σ :
  f !! "/planet" = Some g ->
  NoDup ((before ++ (name, c) :: after).*1) ->
  (forall n, n ∈ before.*1 -> is_Some (g_children g !! n)) ->
  g_children g !! name = None ->
  exists o,
    load_steps f (before ++ (name, c) :: after) σ =
      (inl (NoSuchNodeError name), {| self := o; trace := trace σ |}) /\
    (forall n c' a, (n, c') ∈ before -> g_children g !! n = Some a ->
       o !! n = Some (loaded c' a)) /\
    (forall k, k ∉ before.*1 -> o !! k = self σ !! k).
Proof.
  intros Hg. revert σ.
  induction before as [|p before IH]; intros σ Hnd Hall Hnone.
  - exists (self σ). simpl app. rewrite load_steps_cons.
    unfold mbind, Py_bind. rewrite (load_step_run f g _ σ Hg). simpl.
    rewrite Hnone, state_eta. split; [done|]. split; [|done].
    intros n c' a Hin. by apply elem_of_nil in Hin.
  - change ((p :: before) ++ (name, c) :: after)
      with (p :: (before ++ (name, c) :: after)) in *.
    rewrite fmap_cons in Hnd. apply NoDup_cons in Hnd as [Hfresh Hnd].
    rewrite load_steps_cons. unfold mbind, Py_bind.
    rewrite (load_step_run f g p σ Hg).
    destruct (Hall p.1) as [a Ha]; [rewrite fmap_cons; by left|].
    rewrite Ha.
    destruct (IH {| self := <[p.1 := loaded p.2 a]> (self σ);
                    trace := trace σ |} Hnd)
      as (o & Hrun & Hval & Hframe); [|done|].
    { intros n Hn. apply Hall. rewrite fmap_cons. by right. }
    exists o. simpl in *. split; [done|]. split.
    + intros n c' a' Hin Hn. apply elem_of_cons in Hin as [<-|Hin].
      * simpl in *. rewrite Hframe, lookup_insert_eq; [congruence|].
        intros Hb. apply Hfresh. rewrite fmap_app. apply elem_of_app. by left.
      * by apply (Hval n c' a').
    + intros k [Hk1 Hk2]%not_elem_of_cons.
      rewrite (Hframe k Hk2). by rewrite lookup_insert_ne.
Qed.

(** X2: when the file opens and has the group but a field is missing, the
    exception names the first missing field in the order of the
    assignments; [disc_quantities] and the fields before it have been
    assigned, the missing field and those after it have not been touched. *)
Theorem load_planet_first_missing_field fs path f g before name c after σ :
  h5_files fs !! path = Some f ->
  f !! "/planet" = Some g ->
  Forall (fun q => q <> "") (g_dir g) ->
  planet_fields = before ++ (name, c) :: after ->
  (forall n, n ∈ before.*1 -> is_Some (g_children g !! n)) ->
  g_children g !! name = None ->
  exists σ',
    load_planet fs path σ = (inl (NoSuchNodeError name), σ') /\
    self σ' !! "disc_quantities" =
      Some (VList (List.filter is_public (g_dir g))) /\
    (forall n c' a, (n, c') ∈ before -> g_children g !! n = Some a ->
       self σ' !! n = Some (loaded c' a)) /\
    (forall k, k ∈ name :: after.*1 -> self σ' !! k = self σ !! k).
Proof.
  intros Hf Hg Hdir Htbl Hall Hnone.
  pose proof planet_fields_NoDup as Hnd. rewrite Htbl in Hnd.
  pose proof disc_quantities_not_field as Hdq. rewrite Htbl in Hdq.
  rewrite load_planet_run, Hf. simpl. rewrite Hg.
  destruct (public_names_total _ Hdir) as [qs Hqs]. rewrite Hqs, Htbl.
  destruct (load_steps_first_missing f g before name c after
              {| self := <["disc_quantities" := VList qs]> (self σ);
                 trace := trace σ ++ [EvOpen path] |} Hg Hnd Hall Hnone)
    as (o & -> & Hval & Hframe).
  eexists. split; [done|]. simpl in *.
  rewrite fmap_app, fmap_cons in Hnd, Hdq. simpl in *.
  apply NoDup_app in Hnd as (_ & Hdisj & _).
  split; [|split; [done|]].
  - rewrite Hframe, lookup_insert_eq; [by rewrite (public_names_inv _ _ Hqs)|].
    intros Hin. apply Hdq, elem_of_app. by left.
  - intros k Hk. rewrite Hframe.
    + rewrite lookup_insert_ne; [done|]. intros <-.
      apply Hdq, elem_of_app. by right.
    + intros Hin. by apply (Hdisj k Hin).
Qed.

(** X3: [load_planet] returns normally exactly when the file opens, has the
    "/planet" group, [dir] reports no empty name for it and none of the
    fields of the table is missing. *)
Theorem load_planet_returns_iff_valid fs path σ :
  (exists σ', load_planet fs path σ = (inr tt, σ')) <->
  (exists g, valid_file fs path g).
Proof.
  split.
  - intros [σ' Hrun]. destruct (load_planet_lookup _ _ _ _ Hrun) as (g & Hv & _).
    by exists g.
  - intros [g Hv]. destruct (load_planet_valid fs path g σ Hv) as (σ' & Hrun & _).
    by exists σ'.
Qed.

(** X4: loading is idempotent on the instance: a second [load_planet] of
    the same file on the instance a first one returned succeeds and leaves
    every attribute as the first one set it. *)
Theorem load_planet_idempotent fs path σ σ1 :
  load_planet fs path σ = (inr tt, σ1) ->
  exists σ2, load_planet fs path σ1 = (inr tt, σ2) /\ self σ2 = self σ1.
Proof.
  intros Hrun.
  destruct (load_planet_lookup _ _ _ _ Hrun) as (g & Hv & Hdq & Hval & _ & _).
  destruct (load_planet_valid fs path g σ1 Hv) as (σ2 & Hrun2 & _).
  exists σ2. split; [done|].
  destruct (load_planet_lookup _ _ _ _ Hrun2)
    as (g' & Hv' & Hdq' & Hval' & Hframe' & _).
  assert (g' = g) as ->.
  { destruct Hv as ((f & Hf & Hg) & _), Hv' as ((f' & Hf' & Hg') & _).
    congruence. }
  apply map_eq. intros k.
  destruct (decide (k = "disc_quantities")) as [->|Hk]; [congruence|].
  destruct (decide (k ∈ (@planet_fields num).*1)) as [Hin|Hnot].
  - apply list_elem_of_fmap in Hin as ([n c] & -> & Hin). simpl.
    destruct Hv as (_ & _ & Hall). destruct (Hall n) as [a Ha].
    { apply list_elem_of_fmap. by exists (n, c). }
    by rewrite (Hval n c a Hin Ha), (Hval' n c a Hin Ha).
  - by apply Hframe'.
Qed.

(** ** [load_parameters_from_config] *)

(** Everything a normal return of [load_parameters_from_config] tells. *)
Lemma load_parameters_lookup fs path σ σ' :
  load_parameters_from_config fs path σ = (inr tt, σ') ->
  exists config,
    import_config fs path = inr config /\
    (forall sec name, (sec, name) ∈ config_options ->
       exists v,
         eval_kwargs (dict_get (section_of config sec) name) = inr v /\
         self σ' !! name = Some v) /\
    (forall k, k ∉ config_options.*2 -> self σ' !! k = self σ !! k) /\
    trace σ' = trace σ.
Proof.
  rewrite load_parameters_run.
  destruct (import_config fs path) as [e|config]; [done|].
  destruct (merge_steps_spec config config_options σ)
    as (r & o & -> & Hframe & Hok & _).
  intros [= -> <-]. exists config. split; [done|]. simpl.
  split; [|done]. by apply Hok, config_options_NoDup.
Qed.

Lemma merge_steps_first_failure config before sec name after σ e :
  NoDup ((before ++ (sec, name) :: after).*2) ->
  (forall s n, (s, n) ∈ before ->
     exists v, eval_kwargs (dict_get (section_of config s) n) = inr v) ->
  eval_kwargs (dict_get (section_of config sec) name) = inl e ->
  exists o,
    merge_steps config (before ++ (sec, name) :: after) σ =
      (inl e, {| self := o; trace := trace σ |}) /\
    (forall s n, (s, n) ∈ before ->
       exists v, eval_kwargs (dict_get (section_of config s) n) = inr v /\
                 o !! n = Some v) /\
    (forall k, k ∉ before.*2 -> o !! k = self σ !! k).
Proof.
  revert σ. induction before as [|p before IH]; intros σ Hnd Hall Hfail.
  - exists (self σ). simpl app. rewrite merge_steps_cons.
    unfold mbind, Py_bind. rewrite merge_option_run. simpl.
    rewrite Hfail, state_eta. split; [done|]. split; [|done].
    intros s n Hin. by apply elem_of_nil in Hin.
  - change ((p :: before) ++ (sec, name) :: after)
      with (p :: (before ++ (sec, name) :: after)) in *.
    rewrite fmap_cons in Hnd. apply NoDup_cons in Hnd as [Hfresh Hnd].
    rewrite merge_steps_cons. unfold mbind, Py_bind.
    rewrite merge_option_run.
    destruct (Hall p.1 p.2) as [v Hv]; [destruct p; by left|].
    rewrite Hv.
    destruct (IH {| self := <[p.2 := v]> (self σ); trace := trace σ |} Hnd)
      as (o & Hrun & Hval & Hframe); [|done|].
    { intros s n Hin. apply Hall. by right. }
    exists o. simpl in *. split; [done|]. split.
    + intros s n Hin. apply elem_of_cons in Hin as [<-|Hin].
      * simpl in *. exists v. split; [done|].
        rewrite Hframe, lookup_insert_eq; [done|].
        intros Hb. apply Hfresh. rewrite fmap_app. apply elem_of_app. by left.
      * by apply Hval.
    + intros k [Hk1 Hk2]%not_elem_of_cons.
      rewrite (Hframe k Hk2). by rewrite lookup_insert_ne.
Qed.

(** X5: when the evaluation of an option raises, the merge raises that
    exception; the options before it in the order of the assignments have
    been assigned their evaluated values, and no other attribute, the
    failing option and those after it among them, has been touched. *)
Theorem config_merge_first_failing_option fs path config before sec name
    after e σ :
  import_config fs path = inr config ->
  config_options = before ++ (sec, name) :: after ->
  (forall s n, (s, n) ∈ before ->
     exists v, eval_kwargs (dict_get (section_of config s) n) = inr v) ->
  eval_kwargs (dict_get (section_of config sec) name) = inl e ->
  exists σ',
    load_parameters_from_config fs path σ = (inl e, σ') /\
    (forall s n, (s, n) ∈ before ->
       exists v, eval_kwargs (dict_get (section_of config s) n) = inr v /\
                 self σ' !! n = Some v) /\
    (forall k, k ∉ before.*2 -> self σ' !! k = self σ !! k).
Proof.
  intros Hcfg Htbl Hall Hfail.
  pose proof config_options_NoDup as Hnd. rewrite Htbl in Hnd.
  rewrite load_parameters_run, Hcfg, Htbl.
  destruct (merge_steps_first_failure config before sec name after σ e
              Hnd Hall Hfail) as (o & -> & Hval & Hframe).
  by eexists.
Qed.

(** X6: the merge is idempotent: run again on the instance it returned, it
    returns again and changes nothing. *)
Theorem config_merge_idempotent fs path σ σ1 :
  load_parameters_from_config fs path σ = (inr tt, σ1) ->
  load_parameters_from_config fs path σ1 = (inr tt, σ1).
Proof.
  intros Hrun.
  destruct (load_parameters_lookup _ _ _ _ Hrun)
    as (config & Hcfg & Hval & _ & _).
  rewrite load_parameters_run, Hcfg.
  destruct (merge_steps_spec config config_options σ1)
    as (r & o & Hrun1 & Hframe & Hok & Htot).
  rewrite Hrun1.
  assert (r = inr tt) as Hr.
  { apply Htot. intros sec name Hin.
    destruct (Hval sec name Hin) as (v & Hv & _). by exists v. }
  subst r. f_equal. rewrite <- (state_eta σ1) at 2. f_equal.
  apply map_eq. intros k.
  destruct (decide (k ∈ config_options.*2)) as [Hin|Hnot]; [|by apply Hframe].
  apply list_elem_of_fmap in Hin as ([sec name] & -> & Hin). simpl.
  destruct (Hval sec name Hin) as (v & Hv & ->).
  destruct (Hok eq_refl config_options_NoDup sec name Hin) as (v' & Hv' & ->).
  congruence.
Qed.

(** ** [Planet_atmo] and [Planet_core] *)

(** The rows of a layer, for an array of any number of axes. *)
Lemma species_rows_nd (super : pyobj) attr layer comp T L S rest :
  super !! attr = Some (VArr comp) ->
  shape comp = T :: L :: S :: rest ->
  layer < L ->
  exists rows,
    species_rows super attr layer = inr rows /\
    length rows = S /\
    forall i, i < S ->
      exists a, rows !! i = Some a /\ species_block comp layer i a.
Proof.
  intros Hattr Hshape Hlayer.
  unfold species_rows. rewrite Hattr. simpl.
  unfold take_axis1. rewrite Hshape.
  destruct (decide (layer < L)) as [_|]; [|done]. simpl.
  eexists. split; [done|]. split.
  - by rewrite length_fmap, length_seq.
  - intros i Hi. eexists. split.
    + rewrite list_lookup_fmap, lookup_seq_lt by done. done.
    + unfold species_block. rewrite Hshape. by simpl.
Qed.

(** The exception of a layer that cannot be fanned out. *)
Lemma species_rows_error (super : pyobj) attr layer comp :
  super !! attr = Some (VArr comp) ->
  (length (shape comp) < 2 -> species_rows super attr layer = inl IndexError) /\
  (forall T L, shape comp = [T; L] ->
     species_rows super attr layer =
       inl (if decide (layer < L) then AxisError else IndexError)) /\
  (forall T L S rest, shape comp = T :: L :: S :: rest -> L <= layer ->
     species_rows super attr layer = inl IndexError).
Proof.
  intros Hattr. unfold species_rows. rewrite Hattr. simpl.
  unfold take_axis1. split; [|split].
  - destruct (shape comp) as [|T [|L s]]; simpl; [done|done|lia].
  - intros T L ->. by destruct (decide (layer < L)).
  - intros T L S rest -> HL. destruct (decide (layer < L)); [lia|done].
Qed.

Lemma species_rows_ok_inv (super : pyobj) attr layer rows :
  species_rows super attr layer = inr rows ->
  exists comp T L S rest,
    super !! attr = Some (VArr comp) /\
    shape comp = T :: L :: S :: rest /\ layer < L.
Proof.
  unfold species_rows.
  destruct (super !! attr) as [[| | | | |comp|]|] eqn:Hattr; simpl; try done.
  unfold take_axis1.
  destruct (shape comp) as [|T [|L [|S rest]]] eqn:Hshape; simpl; try done.
  - by destruct (decide (layer < L)).
  - destruct (decide (layer < L)); [|done]. intros _.
    by exists comp, T, L, S, rest.
Qed.

(** A view constructor as the two loops over the rows of the two layers. *)
Lemma fan_out_returns_iff (super : pyobj) attr
    (build : list string -> list string -> pyobj -> res (gmap string ndarray)) :
  (forall elems mols,
     build elems mols super =
       (rows ← species_rows super attr 0;
        this ← setattr_each elems rows ∅;
        rows ← species_rows super attr 1;
        setattr_each mols rows this)) ->
  forall elems mols,
    (exists view, build elems mols super = inr view) <->
    (exists comp, super !! attr = Some (VArr comp) /\
                  view_builds elems mols comp).
Proof.
  intros Hbuild elems mols. rewrite Hbuild. split.
  - intros [view Hrun].
    destruct (species_rows super attr 0) as [e|rows0] eqn:H0; [done|].
    simpl in Hrun.
    destruct (setattr_each elems rows0 ∅) as [e|this] eqn:He; [done|].
    simpl in Hrun.
    destruct (species_rows super attr 1) as [e|rows1] eqn:H1; [done|].
    simpl in Hrun.
    pose proof H1 as (comp & T & L & S & rest & Hattr & Hshape & HL)
      %species_rows_ok_inv.
    destruct (species_rows_nd super attr 0 comp T L S rest Hattr Hshape)
      as (rows0' & Hrun0 & Hlen0 & _); [lia|].
    destruct (species_rows_nd super attr 1 comp T L S rest Hattr Hshape)
      as (rows1' & Hrun1 & Hlen1 & _); [lia|].
    assert (rows0' = rows0) as -> by congruence.
    assert (rows1' = rows1) as -> by congruence.
    apply setattr_each_ok_inv in He as [Hae _].
    apply setattr_each_ok_inv in Hrun as [Ham _].
    rewrite Hlen0 in Hae. rewrite Hlen1 in Ham.
    exists comp. split; [done|]. by exists T, L, S, rest.
  - intros (comp & Hattr & T & L & S & rest & Hshape & HL & Hae & Ham).
    destruct (species_rows_nd super attr 0 comp T L S rest Hattr Hshape)
      as (rows0 & -> & Hlen0 & _); [lia|].
    destruct (species_rows_nd super attr 1 comp T L S rest Hattr Hshape)
      as (rows1 & -> & Hlen1 & _); [lia|].
    simpl. rewrite setattr_each_accepted by (by rewrite Hlen0). simpl.
    rewrite setattr_each_accepted by (by rewrite Hlen1). by eexists.
Qed.

(** X7: the construction of a view returns exactly when the instance holds
    an array under [comp_a] (the atmosphere) or [comp_c] (the core) that has
    at least three axes and at least two layers, and [setattr] accepts the
    names of the two lists that the loops reach, those before the length of
    the species axis; names past it play no part. *)
Theorem views_return_iff_builds elems mols (super : pyobj) :
  ((exists view, Planet_atmo elems mols super = inr view) <->
   (exists comp, super !! "comp_a" = Some (VArr comp) /\
                 view_builds elems mols comp)) /\
  ((exists view, Planet_core elems mols super = inr view) <->
   (exists comp, super !! "comp_c" = Some (VArr comp) /\
                 view_builds elems mols comp)).
Proof.
  split.
  - by apply (fan_out_returns_iff super "comp_a" Planet_atmo).
  - by apply (fan_out_returns_iff super "comp_c" Planet_core).
Qed.

Lemma fan_out_error (super : pyobj) attr comp
    (build : list string -> list string -> pyobj -> res (gmap string ndarray)) :
  (forall elems mols,
     build elems mols super =
       (rows ← species_rows super attr 0;
        this ← setattr_each elems rows ∅;
        rows ← species_rows super attr 1;
        setattr_each mols rows this)) ->
  super !! attr = Some (VArr comp) ->
  forall elems mols,
    (length (shape comp) < 2 -> build elems mols super = inl IndexError) /\
    (forall T L, shape comp = [T; L] ->
       build elems mols super =
         inl (if decide (0 < L) then AxisError else IndexError)) /\
    (forall T L S rest, shape comp = T :: L :: S :: rest ->
       (L = 0 -> build elems mols super = inl IndexError) /\
       (0 < L -> ~ names_accepted S elems ->
          exists e, build elems mols super = inl e /\
                    (e = TypeError \/ e = AttributeError "__weakref__")) /\
       (L = 1 -> names_accepted S elems ->
          build elems mols super = inl IndexError) /\
       (1 < L -> names_accepted S elems -> ~ names_accepted S mols ->
          exists e, build elems mols super = inl e /\
                    (e = TypeError \/ e = AttributeError "__weakref__"))).
Proof.
  intros Hbuild Hattr elems mols. rewrite Hbuild.
  destruct (species_rows_error super attr 0 comp Hattr) as (H0a & H0b & H0c).
  destruct (species_rows_error super attr 1 comp Hattr) as (_ & _ & H1c).
  split; [|split].
  - intros Hlen. by rewrite (H0a Hlen).
  - intros T L Hshape. by rewrite (H0b T L Hshape).
  - intros T L S rest Hshape. split; [|split; [|split]].
    + intros ->. rewrite (H0c T 0 S rest Hshape); [done|lia].
    + intros HL Hnot.
      destruct (species_rows_nd super attr 0 comp T L S rest Hattr Hshape)
        as (rows0 & -> & Hlen0 & _); [lia|].
      simpl. rewrite <- Hlen0 in Hnot.
      destruct (setattr_each_refuses elems rows0 ∅ Hnot) as (e & -> & He).
      by exists e.
    + intros -> Hae.
      destruct (species_rows_nd super attr 0 comp T 1 S rest Hattr Hshape)
        as (rows0 & -> & Hlen0 & _); [lia|].
      simpl. rewrite setattr_each_accepted by (by rewrite Hlen0). simpl.
      rewrite (H1c T 1 S rest Hshape); [done|lia].
    + intros HL Hae Hnot.
      destruct (species_rows_nd super attr 0 comp T L S rest Hattr Hshape)
        as (rows0 & -> & Hlen0 & _); [lia|].
      destruct (species_rows_nd super attr 1 comp T L S rest Hattr Hshape)
        as (rows1 & -> & Hlen1 & _); [lia|].
      simpl. rewrite setattr_each_accepted by (by rewrite Hlen0). simpl.
      rewrite <- Hlen1 in Hnot.
      destruct (setattr_each_refuses mols rows1
                  (assign_each elems rows0 ∅) Hnot) as (e & -> & He).
      by exists e.
Qed.

(** X8: the exception a view constructor raises, in the order the code
    reaches it.  A missing attribute gives [AttributeError].  An array of
    fewer than two axes, of two axes the second of which is empty, or of
    three axes or more with no layer gives [IndexError]; one of exactly two
    axes, the second not empty, gives [AxisError] (from [swapaxes]).  With
    three axes or more and at least one layer the element loop runs: a name
    [setattr] refuses among those it reaches gives [TypeError] or
    [AttributeError]; otherwise a single layer gives [IndexError] when the
    molecule layer is taken, and with two layers or more a refused molecule
    name gives [TypeError] or [AttributeError]. *)
Theorem view_errors_by_shape elems mols (super : pyobj) :
  ((super !! "comp_a" = None ->
    Planet_atmo elems mols super = inl (AttributeError "comp_a")) /\
   (forall comp, super !! "comp_a" = Some (VArr comp) ->
      (length (shape comp) < 2 ->
         Planet_atmo elems mols super = inl IndexError) /\
      (forall T L, shape comp = [T; L] ->
         Planet_atmo elems mols super =
           inl (if decide (0 < L) then AxisError else IndexError)) /\
      (forall T L S rest, shape comp = T :: L :: S :: rest ->
         (L = 0 -> Planet_atmo elems mols super = inl IndexError) /\
         (0 < L -> ~ names_accepted S elems ->
            exists e, Planet_atmo elems mols super = inl e /\
                      (e = TypeError \/ e = AttributeError "__weakref__")) /\
         (L = 1 -> names_accepted S elems ->
            Planet_atmo elems mols super = inl IndexError) /\
         (1 < L -> names_accepted S elems -> ~ names_accepted S mols ->
            exists e, Planet_atmo elems mols super = inl e /\
                      (e = TypeError \/ e = AttributeError "__weakref__"))))) /\
  ((super !! "comp_c" = None ->
    Planet_core elems mols super = inl (AttributeError "comp_c")) /\
   (forall comp, super !! "comp_c" = Some (VArr comp) ->
      (length (shape comp) < 2 ->
         Planet_core elems mols super = inl IndexError) /\
      (forall T L, shape comp = [T; L] ->
         Planet_core elems mols super =
           inl (if decide (0 < L) then AxisError else IndexError)) /\
      (forall T L S rest, shape comp = T :: L :: S :: rest ->
         (L = 0 -> Planet_core elems mols super = inl IndexError) /\
         (0 < L -> ~ names_accepted S elems ->
            exists e, Planet_core elems mols super = inl e /\
                      (e = TypeError \/ e = AttributeError "__weakref__")) /\
         (L = 1 -> names_accepted S elems ->
            Planet_core elems mols super = inl IndexError) /\
         (1 < L -> names_accepted S elems -> ~ names_accepted S mols ->
            exists e, Planet_core elems mols super = inl e /\
                      (e = TypeError \/ e = AttributeError "__weakref__"))))).
Proof.
  split; split.
  - intros Hnone. unfold Planet_atmo, species_rows. by rewrite Hnone.
  - intros comp Hattr.
    by apply (fan_out_error super "comp_a" comp Planet_atmo).
  - intros Hnone. unfold Planet_core, species_rows. by rewrite Hnone.
  - intros comp Hattr.
    by apply (fan_out_error super "comp_c" comp Planet_core).
Qed.

(** The last assignment of a name is the one a loop leaves. *)
Lemma assign_each_last names rows (this : gmap string ndarray) i name a :
  last_at names (length rows) i name ->
  rows !! i = Some a ->
  assign_each names rows this !! name = Some a.
Proof.
  revert rows this i. induction names as [|n names IH];
    intros [|b rows] this i (Hi & Hname & Hlast) Ha; try done.
  rewrite assign_each_cons. destruct i as [|i]; simpl in *.
  - injection Hname as ->. injection Ha as ->.
    rewrite assign_each_other; [by rewrite lookup_insert_eq|].
    intros (k & Hk & Hlt)%elem_of_take.
    apply (Hlast (S k)); [lia|lia|done].
  - apply (IH rows _ i); [|done]. split; [lia|]. split; [done|].
    intros k Hik Hk. apply (Hlast (S k)); lia.
Qed.

Lemma assign_each_source names rows (this : gmap string ndarray) name a :
  assign_each names rows this !! name = Some a ->
  a ∈ rows \/ this !! name = Some a.
Proof.
  revert rows this. induction names as [|n names IH]; intros [|b rows] this;
    try (by right).
  rewrite assign_each_cons. intros [Hin|Hthis]%IH.
  - left. by right.
  - apply lookup_insert_Some in Hthis as [[_ <-]|[_ Hthis]].
    + left. by left.
    + by right.
Qed.

Lemma fan_out_last_wins (super : pyobj) attr comp T L S rest elems mols :
  super !! attr = Some (VArr comp) ->
  shape comp = T :: L :: S :: rest ->
  1 < L ->
  names_accepted S elems ->
  names_accepted S mols ->
  exists view,
    (rows ← species_rows super attr 0;
     this ← setattr_each elems rows ∅;
     rows ← species_rows super attr 1;
     setattr_each mols rows this) = inr view /\
    (forall j name, last_at mols S j name ->
       exists a, view !! name = Some a /\ species_block comp 1 j a) /\
    (forall i name, last_at elems S i name -> name ∉ take S mols ->
       exists a, view !! name = Some a /\ species_block comp 0 i a) /\
    (forall name a, view !! name = Some a -> shape a = T :: rest).
Proof.
  intros Hattr Hshape HL Hae Ham.
  destruct (species_rows_nd super attr 0 comp T L S rest Hattr Hshape)
    as (rows0 & -> & Hlen0 & Hrows0); [lia|].
  destruct (species_rows_nd super attr 1 comp T L S rest Hattr Hshape)
    as (rows1 & -> & Hlen1 & Hrows1); [lia|].
  simpl. rewrite setattr_each_accepted by (by rewrite Hlen0). simpl.
  rewrite setattr_each_accepted by (by rewrite Hlen1).
  eexists. split; [done|]. split; [|split].
  - intros j name Hlast. destruct (Hrows1 j) as (a & Ha & Hblock).
    { by destruct Hlast. }
    exists a. split; [|done].
    apply (assign_each_last _ _ _ j); [by rewrite Hlen1|done].
  - intros i name Hlast Hnot. destruct (Hrows0 i) as (a & Ha & Hblock).
    { by destruct Hlast. }
    exists a. split; [|done].
    rewrite assign_each_other by (by rewrite Hlen1).
    apply (assign_each_last _ _ _ i); [by rewrite Hlen0|done].
  - intros name a [Hin|[Hin|Hin]%assign_each_source]%assign_each_source.
    + apply list_elem_of_lookup in Hin as [j Hj].
      destruct (Hrows1 j) as (a' & Ha' & Hs & _).
      { rewrite <- Hlen1. by eapply lookup_lt_Some. }
      assert (a' = a) as -> by congruence. by rewrite Hs, Hshape.
    + apply list_elem_of_lookup in Hin as [j Hj].
      destruct (Hrows0 j) as (a' & Ha' & Hs & _).
      { rewrite <- Hlen0. by eapply lookup_lt_Some. }
      assert (a' = a) as -> by congruence. by rewrite Hs, Hshape.
    + by rewrite lookup_empty in Hin.
Qed.

(** X9: for names [setattr] accepts, repeated or shared as they may be, a
    name keeps the block of its last position below the length [S] of the
    species axis: a name of the molecule list ends with the molecule block
    of its last position there, and a name of the element list that no
    molecule shares ends with the element block of its last position; every
    entry has the steps axis first, then the axes that follow the species
    axis. *)
Theorem views_last_assignment_wins elems mols (super : pyobj)
    comp T L S rest :
  shape comp = T :: L :: S :: rest ->
  1 < L ->
  names_accepted S elems ->
  names_accepted S mols ->
  (super !! "comp_a" = Some (VArr comp) ->
   exists view, Planet_atmo elems mols super = inr view /\
     (forall j name, last_at mols S j name ->
        exists a, view !! name = Some a /\ species_block comp 1 j a) /\
     (forall i name, last_at elems S i name -> name ∉ take S mols ->
        exists a, view !! name = Some a /\ species_block comp 0 i a) /\
     (forall name a, view !! name = Some a -> shape a = T :: rest)) /\
  (super !! "comp_c" = Some (VArr comp) ->
   exists view, Planet_core elems mols super = inr view /\
     (forall j name, last_at mols S j name ->
        exists a, view !! name = Some a /\ species_block comp 1 j a) /\
     (forall i name, last_at elems S i name -> name ∉ take S mols ->
        exists a, view !! name = Some a /\ species_block comp 0 i a) /\
     (forall name a, view !! name = Some a -> shape a = T :: rest)).
Proof.
  intros Hshape HL Hae Ham. split; intros Hattr.
  - by apply (fan_out_last_wins super "comp_a" comp T L S rest).
  - by apply (fan_out_last_wins super "comp_c" comp T L S rest).
Qed.

(** ** [Planet_class.__init__] *)

Lemma tables_share_a_p_only n :
  n ∈ (@planet_fields num).*1 -> n ∈ config_options.*2 -> n = "a_p".
Proof.
  revert n.
  apply (proj1 (Forall_forall
                  (fun n => n ∈ config_options.*2 -> n = "a_p") _)).
  apply (bool_decide_unpack _). by vm_compute.
Qed.

Lemma views_not_fields :
  ("atmo" ∉ (@planet_fields num).*1) /\ ("core" ∉ (@planet_fields num).*1).
Proof. split; apply (bool_decide_unpack _); by vm_compute. Qed.

Lemma disc_quantities_not_option : "disc_quantities" ∉ config_options.*2.
Proof. apply (bool_decide_unpack _); by vm_compute. Qed.

Lemma record_attributes_cases k :
  k ∈ (@record_attributes num) <->
  k = "disc_quantities" \/ k ∈ (@planet_fields num).*1 \/
  k ∈ config_options.*2 \/ k = "atmo" \/ k = "core".
Proof.
  unfold record_attributes.
  rewrite elem_of_cons, !elem_of_app, !elem_of_cons, elem_of_nil. tauto.
Qed.

Lemma Planet_atmo_reads_comp_a elems mols (super super' : pyobj) :
  super !! "comp_a" = super' !! "comp_a" ->
  Planet_atmo elems mols super = Planet_atmo elems mols super'.
Proof. intros Heq. unfold Planet_atmo, species_rows. by rewrite Heq. Qed.

Lemma Planet_core_reads_comp_c elems mols (super super' : pyobj) :
  super !! "comp_c" = super' !! "comp_c" ->
  Planet_core elems mols super = Planet_core elems mols super'.
Proof. intros Heq. unfold Planet_core, species_rows. by rewrite Heq. Qed.

Lemma constructed_lookup_iff elems mols fs file_path config_path rec k :
  Planet_class elems mols fs file_path config_path = inr rec ->
  is_Some (rec !! k) <-> k ∈ (@record_attributes num).
Proof.
  intros (σ1 & σ2 & atmo & core & Hload & Hmerge & _ & _ & ->)%Planet_class_inv.
  destruct (load_planet_lookup _ _ _ _ Hload)
    as (g & (_ & _ & Hall) & Hdq & Hval1 & Hframe1 & _).
  destruct (load_parameters_lookup _ _ _ _ Hmerge)
    as (config & _ & Hval2 & Hframe2 & _).
  rewrite record_attributes_cases, !lookup_insert_is_Some.
  assert (H1 : is_Some (self σ1 !! k) <->
               k = "disc_quantities" \/ k ∈ (@planet_fields num).*1).
  { destruct (decide (k = "disc_quantities")) as [->|Hk].
    { rewrite Hdq. split; [by left|by eexists]. }
    destruct (decide (k ∈ (@planet_fields num).*1)) as [Hin|Hnot].
    - split; [by right|]. intros _.
      destruct (Hall k Hin) as [a Ha].
      apply list_elem_of_fmap in Hin as ([n c] & -> & Hin). simpl in *.
      rewrite (Hval1 n c a Hin Ha). by eexists.
    - rewrite (Hframe1 k Hk Hnot). unfold fresh. simpl. rewrite lookup_empty.
      split; [by intros [? ?]|by intros [?|?]]. }
  assert (H2 : is_Some (self σ2 !! k) <->
               is_Some (self σ1 !! k) \/ k ∈ config_options.*2).
  { destruct (decide (k ∈ config_options.*2)) as [Hin|Hnot].
    - split; [by right|]. intros _.
      apply list_elem_of_fmap in Hin as ([sec name] & -> & Hin). simpl in *.
      destruct (Hval2 sec name Hin) as (v & _ & ->). by eexists.
    - rewrite (Hframe2 k Hnot). split; [by left|by intros [?|?]]. }
  rewrite H2, H1.
  destruct (decide ("core" = k)) as [<-|Hc]; [split; auto|].
  destruct (decide ("atmo" = k)) as [<-|Ha]; [split; auto 6|].
  split.
  - intros [?|[_ [?|[_ [[?|?]|?]]]]]; try done; auto.
  - intros [?|[?|[?|[?|?]]]]; try done; right; (split; [done|]); right;
      (split; [done|]); auto.
Qed.

(** X10: a constructed instance has exactly the attributes
    [disc_quantities], the 31 fields of the file, the 13 options of the
    configuration, [atmo] and [core], whatever the file and the
    configuration hold. *)
Theorem constructed_attributes elems mols fs file_path config_path rec :
  Planet_class elems mols fs file_path config_path = inr rec ->
  dom rec = list_to_set (@record_attributes num) /\
  size rec = 46.
Proof.
  intros Hrec.
  assert (Hdom : dom rec = list_to_set (@record_attributes num)).
  { apply set_eq. intros k.
    rewrite elem_of_dom, elem_of_list_to_set.
    by eapply constructed_lookup_iff. }
  split; [done|].
  rewrite <- size_dom, Hdom. by vm_compute.
Qed.

(** X11: on a constructed instance every field of the file other than
    [a_p] still holds what [load_planet] gave it: the stored array, and
    for [t] the stored array divided by [Myr]. *)
Theorem constructed_keeps_file_fields elems mols fs file_path config_path rec :
  Planet_class elems mols fs file_path config_path = inr rec ->
  exists g,
    valid_file fs file_path g /\
    forall n c a, (n, c) ∈ planet_fields -> n <> "a_p" ->
      g_children g !! n = Some a -> rec !! n = Some (loaded c a).
Proof.
  intros (σ1 & σ2 & atmo & core & Hload & Hmerge & _ & _ & ->)%Planet_class_inv.
  destruct (load_planet_lookup _ _ _ _ Hload) as (g & Hv & _ & Hval1 & _ & _).
  destruct (load_parameters_lookup _ _ _ _ Hmerge)
    as (config & _ & _ & Hframe2 & _).
  exists g. split; [done|]. intros n c a Hin Hne Ha.
  assert (Hn : n ∈ (@planet_fields num).*1).
  { apply list_elem_of_fmap. by exists (n, c). }
  destruct views_not_fields as [Hatmo Hcore].
  rewrite !lookup_insert_ne by (by intros <-).
  rewrite Hframe2; [by apply Hval1|].
  intros Hopt. by apply Hne, tables_share_a_p_only.
Qed.

(** X12: the views of a constructed instance are those of the stored
    composition arrays alone: [atmo] is what [Planet_atmo] builds from the
    stored [comp_a], [core] what [Planet_core] builds from the stored
    [comp_c]; nothing the configuration holds changes them. *)
Theorem constructed_views_from_stored_arrays elems mols fs file_path
    config_path rec :
  Planet_class elems mols fs file_path config_path = inr rec ->
  exists g ca cc va vc,
    valid_file fs file_path g /\
    g_children g !! "comp_a" = Some ca /\
    g_children g !! "comp_c" = Some cc /\
    rec !! "atmo" = Some (VObj va) /\
    rec !! "core" = Some (VObj vc) /\
    Planet_atmo elems mols (<["comp_a" := VArr ca]> ∅) = inr va /\
    Planet_core elems mols (<["comp_c" := VArr cc]> ∅) = inr vc.
Proof.
  intros (σ1 & σ2 & atmo & core & Hload & Hmerge & Hatmo & Hcore & ->)
    %Planet_class_inv.
  destruct (load_planet_lookup _ _ _ _ Hload)
    as (g & Hv & _ & Hval1 & _ & _).
  destruct (load_parameters_lookup _ _ _ _ Hmerge)
    as (config & _ & _ & Hframe2 & _).
  destruct composition_fields as (Hfa & Hfc & Hoa & Hoc).
  pose proof Hv as (_ & _ & Hall).
  destruct (Hall "comp_a") as [ca Hca].
  { apply list_elem_of_fmap. by exists ("comp_a", None). }
  destruct (Hall "comp_c") as [cc Hcc].
  { apply list_elem_of_fmap. by exists ("comp_c", None). }
  exists g, ca, cc, atmo, core. split; [done|]. split; [done|]. split; [done|].
  split; [by rewrite lookup_insert_ne, lookup_insert_eq|].
  split; [by rewrite lookup_insert_eq|]. split.
  - rewrite <- Hatmo. apply Planet_atmo_reads_comp_a.
    rewrite lookup_insert_eq, (Hframe2 _ Hoa). symmetry.
    apply (Hval1 _ None _ Hfa Hca).
  - rewrite <- Hcore. apply Planet_core_reads_comp_c.
    rewrite lookup_insert_eq, lookup_insert_ne, (Hframe2 _ Hoc) by done.
    symmetry. apply (Hval1 _ None _ Hfc Hcc).
Qed.

(** X13: the constructor returns an instance exactly when the file is
    valid, its two composition arrays have at least three axes and two
    layers, [setattr] accepts the names of the two lists that the loops
    over either array reach, the configuration file reads, and every one of
    the thirteen options evaluates. *)
Theorem constructor_returns_iff elems mols fs file_path config_path :
  (exists rec, Planet_class elems mols fs file_path config_path = inr rec) <->
  (exists g config ca cc,
     valid_file fs file_path g /\
     g_children g !! "comp_a" = Some ca /\ view_builds elems mols ca /\
     g_children g !! "comp_c" = Some cc /\ view_builds elems mols cc /\
     import_config fs config_path = inr config /\
     forall sec name, (sec, name) ∈ config_options ->
       exists v, eval_kwargs (dict_get (section_of config sec) name) = inr v).
Proof.
  destruct composition_fields as (Hfa & Hfc & Hoa & Hoc).
  split.
  - intros [rec Hrec].
    apply Planet_class_inv in Hrec
      as (σ1 & σ2 & atmo & core & Hload & Hmerge & Hatmo & Hcore & _).
    destruct (load_planet_lookup _ _ _ _ Hload)
      as (g & Hv & _ & Hval1 & _ & _).
    destruct (load_parameters_lookup _ _ _ _ Hmerge)
      as (config & Hcfg & Hval2 & Hframe2 & _).
    pose proof Hv as (_ & _ & Hall).
    destruct (Hall "comp_a") as [ca Hca].
    { apply list_elem_of_fmap. by exists ("comp_a", None). }
    destruct (Hall "comp_c") as [cc Hcc].
    { apply list_elem_of_fmap. by exists ("comp_c", None). }
    exists g, config, ca, cc. split; [done|]. split; [done|].
    split.
    { destruct (proj1 (fan_out_returns_iff (self σ2) "comp_a" Planet_atmo
                         (fun _ _ => eq_refl) elems mols)
                  (ex_intro _ atmo Hatmo)) as (comp & Hc & Hfan).
      rewrite (Hframe2 _ Hoa), (Hval1 _ None _ Hfa Hca) in Hc.
      by injection Hc as <-. }
    split; [done|]. split.
    { destruct (proj1 (fan_out_returns_iff _ "comp_c" Planet_core
                         (fun _ _ => eq_refl) elems mols)
                  (ex_intro _ core Hcore)) as (comp & Hc & Hfan).
      rewrite lookup_insert_ne, (Hframe2 _ Hoc), (Hval1 _ None _ Hfc Hcc)
        in Hc by done.
      by injection Hc as <-. }
    split; [done|]. intros sec name Hin.
    destruct (Hval2 sec name Hin) as (v & Hv' & _). by exists v.
  - intros (g & config & ca & cc & Hv & Hca & Hfa' & Hcc & Hfc' & Hcfg & Heval).
    destruct (load_planet_valid fs file_path g fresh Hv) as (σ1 & Hload & Hval).
    destruct (merge_steps_spec config config_options σ1)
      as (r & o & Hmerge & Hframe & _ & Htot).
    rewrite (Htot Heval) in Hmerge.
    assert (Ha : o !! "comp_a" = Some (VArr ca)).
    { rewrite (Hframe _ Hoa). apply (Hval _ None _ Hfa Hca). }
    assert (Hc : o !! "comp_c" = Some (VArr cc)).
    { rewrite (Hframe _ Hoc). apply (Hval _ None _ Hfc Hcc). }
    destruct (proj2 (fan_out_returns_iff o "comp_a" Planet_atmo
                       (fun _ _ => eq_refl) elems mols))
      as [atmo Hatmo]; [by exists ca|].
    destruct (proj2 (fan_out_returns_iff (<["atmo" := VObj atmo]> o)
                       "comp_c" Planet_core (fun _ _ => eq_refl) elems mols))
      as [core Hcore].
    { exists cc. split; [by rewrite lookup_insert_ne|done]. }
    eexists. unfold Planet_class.
    rewrite Planet_class_init_run, Hload, load_parameters_run, Hcfg, Hmerge.
    simpl. rewrite Hatmo. simpl. by rewrite Hcore.
Qed.

(** ** [print_attributes] *)

Lemma string_compare_trans s1 s2 s3 :
  String.compare s1 s2 <> Gt -> String.compare s2 s3 <> Gt ->
  String.compare s1 s3 <> Gt.
Proof.
  revert s2 s3. induction s1 as [|a s1 IH]; intros [|b s2] [|c s3];
    simpl; try done.
  unfold Ascii.compare.
  destruct (N.compare_spec (N_of_ascii a) (N_of_ascii b)) as [Hab|Hab|Hab],
           (N.compare_spec (N_of_ascii b) (N_of_ascii c)) as [Hbc|Hbc|Hbc],
           (N.compare_spec (N_of_ascii a) (N_of_ascii c)) as [Hac|Hac|Hac];
    try done; try lia.
  apply IH.
Qed.

#[local] Instance str_le_total : Total str_le.
Proof. intros s1 s2. apply String.leb_total. Qed.

#[local] Instance str_le_antisymm : AntiSymm (=) str_le.
Proof. intros s1 s2. apply String.leb_antisym. Qed.

#[local] Instance str_le_trans : Transitive str_le.
Proof.
  intros s1 s2 s3. unfold str_le, String.leb. intros H12 H23.
  pose proof (string_compare_trans s1 s2 s3) as Htrans.
  destruct (String.compare s1 s2), (String.compare s2 s3),
           (String.compare s1 s3); try done; by destruct Htrans.
Qed.

Lemma elem_of_dir_instance builtin_names (this : pyobj) name :
  name ∈ dir_instance builtin_names this <->
  is_Some (this !! name) \/ name ∈ Planet_class_names \/
  name ∈ builtin_names.
Proof.
  unfold dir_instance.
  rewrite merge_sort_Permutation, elem_of_remove_dups, !elem_of_app.
  rewrite list_elem_of_fmap. split.
  - intros [([k v] & -> & Hkv%elem_of_map_to_list)|Hrest]; [|by right].
    left. by exists v.
  - intros [[v Hv]|Hrest]; [|by right].
    left. exists (name, v). by rewrite elem_of_map_to_list.
Qed.

Lemma dir_instance_sorted builtin_names (this : pyobj) :
  StronglySorted str_le (dir_instance builtin_names this) /\
  NoDup (dir_instance builtin_names this).
Proof.
  unfold dir_instance. split.
  - apply (StronglySorted_merge_sort str_le).
  - rewrite merge_sort_Permutation. apply NoDup_remove_dups.
Qed.

Lemma StronglySorted_filter_str (P : string -> Prop)
    `{forall x, Decision (P x)} (l : list string) :
  StronglySorted str_le l -> StronglySorted str_le (filter P l).
Proof.
  induction 1 as [|x l Hl IH Hx]; [constructor|].
  rewrite filter_cons. destruct (decide (P x)); [|done].
  constructor; [done|]. apply Forall_forall.
  intros y [_ Hy]%list_elem_of_filter. revert y Hy. by apply Forall_forall.
Qed.

(** X14: [print_attributes] writes each name once, in the order of Python
    strings; a name is written exactly when its first two characters are
    not two underscores and it is an attribute of the instance or one of
    the three methods [load_planet], [load_parameters_from_config] and
    [print_attributes]. *)
Theorem print_attributes_lines builtin_names (this : pyobj) :
  Forall (fun q => String.substring 0 2 q = "__") builtin_names ->
  StronglySorted str_le (print_attributes builtin_names this) /\
  NoDup (print_attributes builtin_names this) /\
  forall name,
    name ∈ print_attributes builtin_names this <->
    String.substring 0 2 name <> "__" /\
    (is_Some (this !! name) \/
     name ∈ ["load_planet"; "load_parameters_from_config";
             "print_attributes"]).
Proof.
  intros Hbuiltin. unfold print_attributes.
  destruct (dir_instance_sorted builtin_names this) as [Hsorted Hnd].
  split; [by apply StronglySorted_filter_str|].
  split; [by apply NoDup_filter|].
  intros name. rewrite list_elem_of_filter, elem_of_dir_instance.
  unfold Planet_class_names. rewrite !elem_of_cons, elem_of_nil.
  split.
  - intros [Hname [?|[[->|?]|Hb]]]; [tauto|done|tauto|].
    by rewrite Forall_forall in Hbuiltin; specialize (Hbuiltin _ Hb).
  - intros [Hname [?|?]]; tauto.
Qed.

Lemma printed_attributes_sorted :
  StronglySorted str_le printed_attributes /\ NoDup printed_attributes.
Proof.
  split.
  - apply Sorted_StronglySorted; [apply _|].
    apply (bool_decide_unpack _). by vm_compute.
  - apply (bool_decide_unpack _). by vm_compute.
Qed.

Lemma printed_attributes_cases name :
  name ∈ printed_attributes <->
  String.substring 0 2 name <> "__" /\
  (name ∈ (@record_attributes num) \/
   name ∈ ["load_planet"; "load_parameters_from_config"; "print_attributes"]).
Proof.
  split.
  - revert name.
    apply (proj1 (Forall_forall
      (fun n => String.substring 0 2 n <> "__" /\
                (n ∈ (@record_attributes num) \/
                 n ∈ ["load_planet"; "load_parameters_from_config";
                      "print_attributes"])) _)).
    apply (bool_decide_unpack _). by vm_compute.
  - intros [_ Hin]. apply elem_of_app in Hin. revert name Hin.
    apply (proj1 (Forall_forall (fun n => n ∈ printed_attributes) _)).
    apply (bool_decide_unpack _). by vm_compute.
Qed.

(** X15: for every constructed instance [print_attributes] writes the same
    49 lines in the same order: the 46 attributes and the three methods,
    capitals first. *)
Theorem print_attributes_of_constructed elems mols fs file_path config_path
    rec builtin_names :
  Planet_class elems mols fs file_path config_path = inr rec ->
  Forall (fun q => String.substring 0 2 q = "__") builtin_names ->
  print_attributes builtin_names rec = printed_attributes.
Proof.
  intros Hrec Hbuiltin.
  destruct (dir_instance_sorted builtin_names rec) as [Hsorted Hnd].
  destruct printed_attributes_sorted as [Hsorted' Hnd'].
  apply (StronglySorted_unique str_le); [|done|].
  { by apply StronglySorted_filter_str. }
  apply NoDup_Permutation; [by apply NoDup_filter|done|].
  intros name. rewrite printed_attributes_cases.
  unfold print_attributes.
  rewrite list_elem_of_filter, elem_of_dir_instance.
  rewrite (constructed_lookup_iff _ _ _ _ _ _ name Hrec).
  unfold Planet_class_names. rewrite !elem_of_cons, elem_of_nil.
  split.
  - intros [Hname [?|[[->|?]|Hb]]]; [tauto|done|tauto|].
    by rewrite Forall_forall in Hbuiltin; specialize (Hbuiltin _ Hb).
  - intros [Hname [?|?]]; tauto.
Qed.

End MoreProperties.

(** * The further properties on the example files *)

Section MoreRuns.
Import Rational Example Example2.
Local Open Scope list_scope.

Lemma load_planet_frame_witness :
  "note" <> "disc_quantities" /\
  ("note" ∉ (@planet_fields numeric).*1) /\
  self (load_planet Example.fs "simulation.h5" marked).2 !! "note" =
    self marked !! "note".
Proof.
  assert (H1 : "note" <> "disc_quantities") by done.
  assert (H2 : "note" ∉ (@planet_fields numeric).*1).
  { apply (bool_decide_unpack _). vm_compute. exact I. }
  split; [exact H1|]. split; [exact H2|].
  exact (load_planet_frame Example.fs "simulation.h5" marked "note" H1 H2).
Defined.

Lemma partial_file_fields_before :
  forall n, n ∈ [("M", None); ("M_a", @None F)].*1 ->
            is_Some (g_children partial_planet !! n).
Proof.
  apply (proj1 (Forall_forall _ _)), (bool_decide_unpack _).
  vm_compute. exact I.
Qed.

Lemma load_planet_first_missing_field_witness :
  h5_files Example2.fs !! "partial.h5" = Some (<["/planet" := partial_planet]> ∅) /\
  g_children partial_planet !! "M_c" = None /\
  exists σ',
    load_planet Example2.fs "partial.h5" fresh =
      (inl (NoSuchNodeError "M_c"), σ') /\
    self σ' !! "disc_quantities" =
      Some (VList (List.filter is_public (g_dir partial_planet))) /\
    (forall n c' a, (n, c') ∈ [("M", None); ("M_a", None)] ->
       g_children partial_planet !! n = Some a ->
       self σ' !! n = Some (loaded c' a)) /\
    (forall k, k ∈ "M_c" :: (drop 3 planet_fields).*1 ->
       self σ' !! k = self fresh !! k).
Proof.
  split; [reflexivity|]. split; [reflexivity|].
  apply (load_planet_first_missing_field Example2.fs "partial.h5"
           (<["/planet" := partial_planet]> ∅) partial_planet
           [("M", None); ("M_a", None)] "M_c" None (drop 3 planet_fields)
           fresh eq_refl eq_refl).
  - repeat constructor; done.
  - reflexivity.
  - exact partial_file_fields_before.
  - reflexivity.
Defined.

Lemma load_planet_idempotent_witness :
  load_planet Example.fs "simulation.h5" fresh = (inr tt, loaded_state) /\
  exists σ2,
    load_planet Example.fs "simulation.h5" loaded_state = (inr tt, σ2) /\
    self σ2 = self loaded_state.
Proof.
  split; [exact example_load_run|].
  exact (load_planet_idempotent Example.fs "simulation.h5" fresh loaded_state
           example_load_run).
Defined.

Lemma bad_options_before s n :
  (s, n) ∈ [("config_planet", "matter_removal");
            ("config_planet", "use_heat_torque");
            ("config_planet", "use_dynamical_torque")] ->
  exists v,
    eval_kwargs (dict_get (section_of (<["config_planet" := bad_options]> ∅) s)
                   n) = inr v.
Proof.
  intros Hin.
  repeat (apply elem_of_cons in Hin as [[= -> ->]|Hin];
          [eexists; reflexivity|]).
  by apply elem_of_nil in Hin.
Qed.

Lemma config_merge_first_failing_option_witness :
  import_config Example2.fs "bad.yaml" =
    inr (<["config_planet" := bad_options]> ∅) /\
  eval_kwargs (dict_get (section_of (<["config_planet" := bad_options]> ∅)
                           "config_planet") "migration") =
    inl (EvaluationError "perhaps") /\
  exists σ',
    load_parameters_from_config Example2.fs "bad.yaml" marked =
      (inl (EvaluationError "perhaps"), σ') /\
    (forall s n, (s, n) ∈ take 3 config_options ->
       exists v,
         eval_kwargs (dict_get (section_of (<["config_planet" := bad_options]> ∅)
                                  s) n) = inr v /\
         self σ' !! n = Some v) /\
    (forall k, k ∉ (take 3 config_options).*2 ->
       self σ' !! k = self marked !! k).
Proof.
  split; [reflexivity|]. split; [reflexivity|].
  exact (config_merge_first_failing_option Example2.fs "bad.yaml"
           (<["config_planet" := bad_options]> ∅) (take 3 config_options)
           "config_planet" "migration" (drop 4 config_options)
           (EvaluationError "perhaps") marked eq_refl eq_refl
           bad_options_before eq_refl).
Defined.

Lemma example_merge_run :
  load_parameters_from_config Example.fs "config.yaml" fresh =
  (inr tt, merged_state).
Proof.
  unfold merged_state. apply pair_of_fst. vm_compute. reflexivity.
Qed.

Lemma config_merge_idempotent_witness :
  load_parameters_from_config Example.fs "config.yaml" fresh =
    (inr tt, merged_state) /\
  load_parameters_from_config Example.fs "config.yaml" merged_state =
    (inr tt, merged_state).
Proof.
  split; [exact example_merge_run|].
  exact (config_merge_idempotent Example.fs "config.yaml" fresh merged_state
           example_merge_run).
Defined.

Lemma refused_class_not_accepted : ~ names_accepted 2 ["__class__"; "Si"].
Proof. intros [Hclass _]%Forall_cons. discriminate Hclass. Qed.

Lemma view_errors_by_shape_witness :
  Planet_atmo elements molecules (holder flat) = inl IndexError /\
  Planet_atmo elements molecules (holder table) = inl AxisError /\
  Planet_core elements molecules (holder single_layer) = inl IndexError /\
  (exists e,
     Planet_core ["__class__"; "Si"] molecules (holder single_layer) = inl e /\
     (e = TypeError \/ e = AttributeError "__weakref__")) /\
  Planet_core elements molecules ∅ = inl (AttributeError "comp_c").
Proof.
  pose proof (view_errors_by_shape elements molecules (holder flat))
    as [[_ Hflat] _].
  pose proof (view_errors_by_shape elements molecules (holder table))
    as [[_ Htable] _].
  pose proof (view_errors_by_shape elements molecules (holder single_layer))
    as [_ [_ Hsingle]].
  pose proof (view_errors_by_shape ["__class__"; "Si"] molecules
                (holder single_layer)) as [_ [_ Hrefused]].
  pose proof (view_errors_by_shape elements molecules ∅) as [_ [Hnone _]].
  assert (Hacc : names_accepted 2 elements) by repeat constructor.
  assert (H01 : 0 < 1) by lia.
  split; [|split; [|split; [|split]]].
  - apply (proj1 (Hflat flat eq_refl)). simpl. lia.
  - exact (proj1 (proj2 (Htable table eq_refl)) 3 2 eq_refl).
  - exact (proj1 (proj2 (proj2 (proj2 (proj2 (Hsingle single_layer eq_refl))
                                   2 1 2 [] eq_refl))) eq_refl Hacc).
  - exact (proj1 (proj2 (proj2 (proj2 (Hrefused single_layer eq_refl))
                            2 1 2 [] eq_refl)) H01 refused_class_not_accepted).
  - exact (Hnone eq_refl).
Defined.

Example example_refused_before_single_layer :
  Planet_core ["__class__"; "Si"] molecules (holder single_layer) =
    inl TypeError /\
  Planet_core ["Fe"; "__weakref__"] molecules (holder comp) =
    inl (AttributeError "__weakref__") /\
  Planet_atmo elements ["CO"; "__dict__"] (holder comp) = inl TypeError.
Proof. vm_compute. repeat split. Qed.

Lemma views_last_assignment_wins_witness :
  shape one_step = [1; 2; 2] /\ 1 < 2 /\
  names_accepted 2 ["Fe"; "Fe"] /\ names_accepted 2 ["CO"; "H2O"] /\
  last_at ["Fe"; "Fe"] 2 1 "Fe" /\
  exists view,
    Planet_atmo ["Fe"; "Fe"] ["CO"; "H2O"] (holder one_step) = inr view /\
    (forall j name, last_at ["CO"; "H2O"] 2 j name ->
       exists a, view !! name = Some a /\ species_block one_step 1 j a) /\
    (forall i name, last_at ["Fe"; "Fe"] 2 i name ->
       name ∉ take 2 ["CO"; "H2O"] ->
       exists a, view !! name = Some a /\ species_block one_step 0 i a) /\
    (forall name a, view !! name = Some a -> shape a = [1]).
Proof.
  assert (HL : 1 < 2) by lia.
  assert (Hae : names_accepted 2 ["Fe"; "Fe"]) by repeat constructor.
  assert (Ham : names_accepted 2 ["CO"; "H2O"]) by repeat constructor.
  split; [reflexivity|]. split; [exact HL|].
  split; [exact Hae|]. split; [exact Ham|]. split.
  { split; [lia|]. split; [reflexivity|]. intros k ? ?. lia. }
  exact (proj1 (views_last_assignment_wins ["Fe"; "Fe"] ["CO"; "H2O"]
                  (holder one_step) one_step 1 2 2 [] eq_refl HL Hae Ham)
           eq_refl).
Defined.

Lemma constructed_attributes_witness :
  Planet_class elements molecules Example.fs "simulation.h5" "config.yaml" =
    inr record /\
  dom record = list_to_set (@record_attributes numeric) /\
  size record = 46.
Proof.
  split; [exact example_record_built|].
  exact (constructed_attributes elements molecules Example.fs "simulation.h5"
           "config.yaml" record example_record_built).
Defined.

Lemma constructed_keeps_file_fields_witness :
  Planet_class elements molecules Example.fs "simulation.h5" "config.yaml" =
    inr record /\
  exists g,
    valid_file Example.fs "simulation.h5" g /\
    forall n c a, (n, c) ∈ planet_fields -> n <> "a_p" ->
      g_children g !! n = Some a -> record !! n = Some (loaded c a).
Proof.
  split; [exact example_record_built|].
  exact (constructed_keeps_file_fields elements molecules Example.fs
           "simulation.h5" "config.yaml" record example_record_built).
Defined.

Lemma constructed_views_from_stored_arrays_witness :
  Planet_class elements molecules Example.fs "simulation.h5" "config.yaml" =
    inr record /\
  exists g ca cc va vc,
    valid_file Example.fs "simulation.h5" g /\
    g_children g !! "comp_a" = Some ca /\
    g_children g !! "comp_c" = Some cc /\
    record !! "atmo" = Some (VObj va) /\
    record !! "core" = Some (VObj vc) /\
    Planet_atmo elements molecules (<["comp_a" := VArr ca]> ∅) = inr va /\
    Planet_core elements molecules (<["comp_c" := VArr cc]> ∅) = inr vc.
Proof.
  split; [exact example_record_built|].
  exact (constructed_views_from_stored_arrays elements molecules Example.fs
           "simulation.h5" "config.yaml" record example_record_built).
Defined.

Lemma builtin_names_dunder :
  Forall (fun q => String.substring 0 2 q = "__") builtin_names.
Proof. repeat constructor. Qed.

Lemma print_attributes_lines_witness :
  Forall (fun q => String.substring 0 2 q = "__") builtin_names /\
  StronglySorted str_le (print_attributes builtin_names (self marked)) /\
  NoDup (print_attributes builtin_names (self marked)) /\
  forall name,
    name ∈ print_attributes builtin_names (self marked) <->
    String.substring 0 2 name <> "__" /\
    (is_Some (self marked !! name) \/
     name ∈ ["load_planet"; "load_parameters_from_config";
             "print_attributes"]).
Proof.
  split; [exact builtin_names_dunder|].
  exact (print_attributes_lines builtin_names (self marked)
           builtin_names_dunder).
Defined.

Example example_print_marked :
  print_attributes builtin_names (self marked) =
  ["load_parameters_from_config"; "load_planet"; "note"; "print_attributes"].
Proof. vm_compute. reflexivity. Qed.

Lemma print_attributes_of_constructed_witness :
  Planet_class elements molecules Example.fs "simulation.h5" "config.yaml" =
    inr record /\
  Forall (fun q => String.substring 0 2 q = "__") builtin_names /\
  print_attributes builtin_names record = printed_attributes.
Proof.
  split; [exact example_record_built|]. split; [exact builtin_names_dunder|].
  exact (print_attributes_of_constructed elements molecules Example.fs
           "simulation.h5" "config.yaml" record builtin_names
           example_record_built builtin_names_dunder).
Defined.

End MoreRuns.
